(** * HealthcareDashboard: the patient-intake form controller

    A shallow embedding of the React component [HealthcareDashboard]
    (validation of the name and age fields, file selection, submission
    through axios and the mapping of its outcome to a message), together
    with the properties of its specification.

    JavaScript strings are sequences of UTF-16 code units, numbers are
    IEEE binary64 values, the [errors] object is a finite map from property
    names to strings, and a handler is a function of the state its render
    closed over, producing the queue of state updates it requests. *)

From Stdlib Require Import ZArith NArith QArith List Bool Lia.
From stdpp Require Import gmap strings list fin_maps.
Import ListNotations.

(** ** JavaScript strings *)

Module Js.

(** A string is the list of its UTF-16 code units. *)
Definition jsstring : Type := list N.

(** A string literal of the source (all of them are ASCII). *)
Definition str (s : string) : jsstring :=
  map Ascii.N_of_ascii (String.list_ascii_of_string s).

(** [s.length] *)
Definition strlen (s : jsstring) : Z := Z.of_nat (length s).

Fixpoint str_eqb (a b : jsstring) : bool :=
  match a, b with
  | [], [] => true
  | x :: a', y :: b' => N.eqb x y && str_eqb a' b'
  | _, _ => false
  end.

(** The characters that [String.prototype.trim] strips and that the
    regular-expression class [\s] matches: WhiteSpace and LineTerminator
    of ECMA-262 (TAB, LF, VT, FF, CR, SP, NBSP, U+1680, U+2000..U+200A,
    LS, PS, U+202F, U+205F, U+3000, ZWNBSP). *)
Definition isWhiteSpace (c : N) : bool :=
  ((9 <=? c) && (c <=? 13))%N
  || (c =? 32)%N || (c =? 160)%N || (c =? 0x1680)%N
  || ((0x2000 <=? c) && (c <=? 0x200A))%N
  || (c =? 0x2028)%N || (c =? 0x2029)%N || (c =? 0x202F)%N
  || (c =? 0x205F)%N || (c =? 0x3000)%N || (c =? 0xFEFF)%N.

(** The class [a-zA-Z]. *)
Definition isLetter (c : N) : bool :=
  ((65 <=? c) && (c <=? 90))%N || ((97 <=? c) && (c <=? 122))%N.

Fixpoint trimStart (s : jsstring) : jsstring :=
  match s with
  | c :: r => if isWhiteSpace c then trimStart r else s
  | [] => []
  end.

Definition trimEnd (s : jsstring) : jsstring := rev (trimStart (rev s)).

(** [s.trim()] *)
Definition trim (s : jsstring) : jsstring := trimEnd (trimStart s).

Fixpoint startsWith (p s : jsstring) : bool :=
  match p, s with
  | [], _ => true
  | x :: p', y :: s' => N.eqb x y && startsWith p' s'
  | _ :: _, [] => false
  end.

(** [s.includes(p)] *)
Fixpoint includes (p s : jsstring) : bool :=
  startsWith p s ||
  match s with
  | [] => false
  | _ :: s' => includes p s'
  end.

(** ** JavaScript values that the component stores in string-typed slots *)

(** A property that is read may be missing: [undefined] or a string. *)
Inductive jsval : Type :=
| Undefined
| Str (s : jsstring).

(** ToBoolean: [undefined] and the empty string are falsy. *)
Definition truthy (v : jsval) : bool :=
  match v with
  | Undefined => false
  | Str [] => false
  | Str (_ :: _) => true
  end.

(** [a || b] *)
Definition or_else (a b : jsval) : jsval := if truthy a then a else b.

(** [a === s] for a string literal [s] *)
Definition strict_eq (a : jsval) (s : jsstring) : bool :=
  match a with
  | Undefined => false
  | Str x => str_eqb x s
  end.

(** Reading a property of an object held as a finite map. *)
Definition get (o : gmap string jsstring) (k : string) : jsval :=
  match o !! k with
  | Some s => Str s
  | None => Undefined
  end.

(** ** Numbers *)

(** A binary64 value as far as [<] and [>] can tell: not-a-number, an
    infinity, or a finite value (the two zeros are not told apart). *)
Inductive jsnum : Type :=
| NaN
| Inf (negative : bool)
| Fin (q : Q).

(** [a < b] on numbers; a comparison with NaN is false. *)
Definition num_lt (a b : jsnum) : bool :=
  match a, b with
  | NaN, _ | _, NaN => false
  | Fin p, Fin q => match (p ?= q)%Q with Lt => true | _ => false end
  | Inf true, Inf true => false
  | Inf true, _ => true
  | Inf false, _ => false
  | Fin _, Inf negative => negb negative
  end.

(** Round half to even of the non-negative quotient [n/d]. *)
Definition roundHalfEven (n d : Z) : Z :=
  let q := (n / d)%Z in
  let r := (n mod d)%Z in
  if (2 * r <? d)%Z then q
  else if (d <? 2 * r)%Z then (q + 1)%Z
  else if Z.even q then q else (q + 1)%Z.

(** The binary64 value nearest to the non-negative rational [n/d]
    (53-bit significand, least exponent -1074, ties to even); [None]
    when the magnitude rounds to Infinity. *)
Definition roundToBinary64 (n d : Z) : option Q :=
  if (n =? 0)%Z then Some 0%Q
  else
    let k := (Z.log2 n - Z.log2 d)%Z in
    let above :=
      if (0 <=? k)%Z then (d * 2 ^ k <=? n)%Z else (d <=? n * 2 ^ (- k))%Z in
    let fl := if above then k else (k - 1)%Z in
    let e := Z.max (fl - 52) (-1074) in
    if (0 <=? e)%Z then
      let m := roundHalfEven n (d * 2 ^ e) in
      if (2 ^ 1024 <=? m * 2 ^ e)%Z then None else Some (inject_Z (m * 2 ^ e))
    else
      let m := roundHalfEven (n * 2 ^ (- e)) d in
      Some (Qred (m # Z.to_pos (2 ^ (- e)))).

Definition signed (negative : bool) (n d : Z) : jsnum :=
  match roundToBinary64 n d with
  | None => Inf negative
  | Some q => Fin (if negative then Qopp q else q)
  end.

Definition digitOf (radix : Z) (c : N) : option Z :=
  let v :=
    if ((48 <=? c) && (c <=? 57))%N then (Z.of_N c - 48)%Z
    else if ((97 <=? c) && (c <=? 102))%N then (Z.of_N c - 87)%Z
    else if ((65 <=? c) && (c <=? 70))%N then (Z.of_N c - 55)%Z
    else radix in
  if (v <? radix)%Z then Some v else None.

(** The longest prefix of digits, and what follows it. *)
Fixpoint spanDigits (radix : Z) (s : jsstring) : list Z * jsstring :=
  match s with
  | c :: r =>
      match digitOf radix c with
      | Some v => let '(ds, r') := spanDigits radix r in (v :: ds, r')
      | None => ([], s)
      end
  | [] => ([], [])
  end.

Definition digitsValue (radix : Z) (ds : list Z) : Z :=
  fold_left (fun acc v => (acc * radix + v)%Z) ds 0%Z.

(** NonDecimalIntegerLiteral: 0x, 0o or 0b and at least one digit. *)
Definition nonDecimalIntegerLiteral (s : jsstring) : option Z :=
  match s with
  | 48%N :: p :: r =>
      let radix :=
        if ((p =? 120) || (p =? 88))%N then Some 16%Z
        else if ((p =? 111) || (p =? 79))%N then Some 8%Z
        else if ((p =? 98) || (p =? 66))%N then Some 2%Z
        else None in
      match radix with
      | Some b =>
          match spanDigits b r with
          | ((_ :: _) as ds, []) => Some (digitsValue b ds)
          | _ => None
          end
      | None => None
      end
  | _ => None
  end.

(** ExponentPart: e or E, an optional sign, at least one digit. *)
Definition exponentPart (s : jsstring) : option (Z * jsstring) :=
  match s with
  | c :: r =>
      if ((c =? 101) || (c =? 69))%N then
        let '(negative, r1) :=
          match r with
          | x :: t =>
              if (x =? 43)%N then (false, t)
              else if (x =? 45)%N then (true, t) else (false, r)
          | [] => (false, r)
          end in
        match spanDigits 10 r1 with
        | ([], _) => None
        | (ds, r2) =>
            let v := digitsValue 10 ds in
            Some (if negative then (- v)%Z else v, r2)
        end
      else None
  | [] => None
  end.

(** The mathematical value of a StrUnsignedDecimalLiteral. *)
Inductive mv : Type :=
| MVInfinity
| MVRatio (n d : Z).

Definition strUnsignedDecimalLiteral (s : jsstring) : option mv :=
  if str_eqb s (str "Infinity") then Some MVInfinity
  else
    let '(ip, r1) := spanDigits 10 s in
    let '(fp, r2) :=
      match r1 with
      | c :: t => if (c =? 46)%N then spanDigits 10 t else ([], r1)
      | [] => ([], r1)
      end in
    match ip ++ fp with
    | [] => None
    | ds =>
        let '(e, r3) :=
          match exponentPart r2 with
          | Some (e, r3) => (e, r3)
          | None => (0%Z, r2)
          end in
        match r3 with
        | [] =>
            let k := (e - Z.of_nat (length fp))%Z in
            let v := digitsValue 10 ds in
            Some (if (0 <=? k)%Z then MVRatio (v * 10 ^ k) 1
                  else MVRatio v (10 ^ (- k)))
        | _ :: _ => None
        end
    end.

(** ToNumber applied to a string (StringToNumber): surrounding white
    space is ignored, the empty string is 0, a literal that does not
    parse is NaN. *)
Definition ToNumber (s : jsstring) : jsnum :=
  match trim s with
  | [] => Fin 0
  | t =>
      match nonDecimalIntegerLiteral t with
      | Some v => signed false v 1
      | None =>
          let '(negative, u) :=
            match t with
            | x :: r =>
                if (x =? 43)%N then (false, r)
                else if (x =? 45)%N then (true, r) else (false, t)
            | [] => (false, t)
            end in
          match strUnsignedDecimalLiteral u with
          | None => NaN
          | Some MVInfinity => Inf negative
          | Some (MVRatio n d) => signed negative n d
          end
      end
  end.

End Js.

Import Js.

(** ** The component state *)

Module Dashboard.

(** A [File] of the browser, as far as the component looks at it:
    its [name], its MIME [type] and its [size] in bytes. *)
Record File : Type := mkFile {
  file_name : jsstring;
  file_type : jsstring;
  file_size : Z
}.

(** The object held by [formData]. *)
Record FormData : Type := mkFormData {
  name : jsstring;
  age : jsstring;
  file : option File
}.

(** The six [useState] slots of the component. *)
Record State : Type := mkState {
  formData : FormData;
  errors : gmap string jsstring;
  isSubmitting : bool;
  submitMessage : jsval;
  messageType : jsstring;
  isDragging : bool
}.

Definition emptyForm : FormData :=
  {| name := str ""; age := str ""; file := None |}.

(** The state of the first render. *)
Definition initialState : State :=
  {| formData := emptyForm; errors := ∅; isSubmitting := false;
     submitMessage := Str (str ""); messageType := str "";
     isDragging := false |}.

(** ** Handlers

    A handler is created by a render and reads the state variables of
    that render (its closure); the setters it calls do not change those
    variables, they update the state that the next render will see.
    [Handler A] takes the state the handler closed over and the state
    its setters act on, and returns a result and the updated state. *)
Definition Handler (A : Type) : Type := State -> State -> A * State.

#[export] Instance handler_ret : MRet Handler :=
  fun A (a : A) _ s => (a, s).

#[export] Instance handler_bind : MBind Handler :=
  fun A B (k : A -> Handler B) (m : Handler A) c s =>
    let '(a, s') := m c s in k a c s'.

(** The state variables as the running handler sees them. *)
Definition closure : Handler State := fun c s => (c, s).

Definition setFormData (f : FormData -> FormData) : Handler unit :=
  fun _ s =>
    (tt, {| formData := f (formData s); errors := errors s;
            isSubmitting := isSubmitting s; submitMessage := submitMessage s;
            messageType := messageType s; isDragging := isDragging s |}).

Definition setErrors (f : gmap string jsstring -> gmap string jsstring)
  : Handler unit :=
  fun _ s =>
    (tt, {| formData := formData s; errors := f (errors s);
            isSubmitting := isSubmitting s; submitMessage := submitMessage s;
            messageType := messageType s; isDragging := isDragging s |}).

Definition setIsSubmitting (b : bool) : Handler unit :=
  fun _ s =>
    (tt, {| formData := formData s; errors := errors s;
            isSubmitting := b; submitMessage := submitMessage s;
            messageType := messageType s; isDragging := isDragging s |}).

Definition setSubmitMessage (v : jsval) : Handler unit :=
  fun _ s =>
    (tt, {| formData := formData s; errors := errors s;
            isSubmitting := isSubmitting s; submitMessage := v;
            messageType := messageType s; isDragging := isDragging s |}).

Definition setMessageType (t : jsstring) : Handler unit :=
  fun _ s =>
    (tt, {| formData := formData s; errors := errors s;
            isSubmitting := isSubmitting s; submitMessage := submitMessage s;
            messageType := t; isDragging := isDragging s |}).

Definition setIsDragging (b : bool) : Handler unit :=
  fun _ s =>
    (tt, {| formData := formData s; errors := errors s;
            isSubmitting := isSubmitting s; submitMessage := submitMessage s;
            messageType := messageType s; isDragging := b |}).

(** A handler run to completion in the render that created it. *)
Definition run {A} (h : Handler A) (s : State) : A * State := h s s.

(** *** validateForm *)

(** The regular expression [/^[a-zA-Z\s]*$/] tested on a string. *)
Definition lettersAndSpaces (s : jsstring) : bool :=
  forallb (fun c => isLetter c || isWhiteSpace c) s.

(** The object [newErrors] once both fields have been looked at. *)
Definition newErrors (fd : FormData) : gmap string jsstring :=
  let e0 : gmap string jsstring := ∅ in
  let e1 :=
    if negb (truthy (Str (trim (name fd)))) then
      <["name" := str "Name is required"]> e0
    else if (strlen (name fd) <? 2)%Z then
      <["name" := str "Name must be at least 2 characters"]> e0
    else if negb (lettersAndSpaces (name fd)) then
      <["name" := str "Name should only contain letters"]> e0
    else e0 in
  if negb (truthy (Str (age fd))) then
    <["age" := str "Age is required"]> e1
  else if num_lt (ToNumber (age fd)) (Fin 0)
          || num_lt (Fin 150) (ToNumber (age fd)) then
    <["age" := str "Age must be between 0 and 150"]> e1
  else e1.

(** [Object.keys(o).length === 0] *)
Definition noKeys (o : gmap string jsstring) : bool :=
  Nat.eqb (length (map_to_list o).*1) 0.

Definition validateForm : Handler bool :=
  c ← closure;
  let e := newErrors (formData c) in
  setErrors (fun _ => e);;
  mret (noKeys e).

(** *** handleInputChange *)

(** The two inputs whose [onChange] is [handleInputChange]; the [name]
    attribute of the element is the property that is written. *)
Inductive TextInput : Type := NameInput | AgeInput.

Definition inputName (i : TextInput) : string :=
  match i with
  | NameInput => "name"
  | AgeInput => "age"
  end.

(** [{...prev, [name]: value}] on the form data. *)
Definition withField (i : TextInput) (value : jsstring) (prev : FormData)
  : FormData :=
  match i with
  | NameInput => {| name := value; age := age prev; file := file prev |}
  | AgeInput => {| name := name prev; age := value; file := file prev |}
  end.

Definition handleInputChange (target : TextInput) (value : jsstring)
  : Handler unit :=
  setFormData (withField target value);;
  c ← closure;
  if truthy (get (errors c) (inputName target)) then
    setErrors (fun prev => <[inputName target := str ""]> prev)
  else mret tt.

(** *** Drag and drop, file selection *)

Definition handleDragOver : Handler unit := setIsDragging true.

Definition handleDragLeave : Handler unit := setIsDragging false.

Definition allowedTypes : list jsstring :=
  [str "application/pdf"; str "image/jpeg"; str "image/png"].

Definition maxSize : Z := 5 * 1024 * 1024.

Definition handleFileSelection (f : File) : Handler unit :=
  if negb (existsb (str_eqb (file_type f)) allowedTypes) then
    setErrors (fun prev =>
      <["file" := str "Only PDF, JPEG, and PNG files are allowed"]> prev)
  else if (maxSize <? file_size f)%Z then
    setErrors (fun prev =>
      <["file" := str "File size should be less than 5MB"]> prev)
  else
    setFormData (fun prev =>
      {| name := name prev; age := age prev; file := Some f |});;
    setErrors (fun prev => <["file" := str ""]> prev).

(** [e.dataTransfer.files[0]] may be missing. *)
Definition handleDrop (first : option File) : Handler unit :=
  setIsDragging false;;
  match first with
  | Some f => handleFileSelection f
  | None => mret tt
  end.

Definition handleFileChange (first : option File) : Handler unit :=
  match first with
  | Some f => handleFileSelection f
  | None => mret tt
  end.

(** *** handleSubmit *)

(** One entry of the [FormData] payload. *)
Inductive Part : Type :=
| Text (s : jsstring)
| Blob (f : File).

(** The call [axios.post(url, submitData, { headers, timeout })]. *)
Record Request : Type := mkRequest {
  url : jsstring;
  submitData : list (string * Part);
  timeout : Z
}.

(** A response: its HTTP [status] and the fields of its parsed JSON
    body (a body that is not a JSON object has no fields). *)
Record Response : Type := mkResponse {
  status : Z;
  data : gmap string jsstring
}.

(** The error axios rejects with: [error.code], [error.message] and,
    when the server answered, [error.response]. *)
Record AxiosError : Type := mkAxiosError {
  code : jsval;
  message : jsstring;
  response : option Response
}.

(** How the awaited promise settles. axios fulfils it exactly when the
    server answers with a 2xx status and rejects it otherwise. *)
Inductive Settled : Type :=
| Fulfilled (r : Response)
| Rejected (e : AxiosError).

Definition payload (fd : FormData) : list (string * Part) :=
  [("name", Text (name fd)); ("age", Text (age fd))]
  ++ match file fd with
     | Some f => [("file", Blob f)]
     | None => []
     end.

(** [handleSubmit] up to its [await]: the request that was issued, if
    any. *)
Definition handleSubmit : Handler (option Request) :=
  ok ← validateForm;
  if negb ok then
    setMessageType (str "error");;
    setSubmitMessage (Str (str "Please fix the errors before submitting."));;
    mret None
  else
    setIsSubmitting true;;
    setSubmitMessage (Str (str ""));;
    c ← closure;
    mret (Some {| url := str "http://localhost:5000/api/form";
                  submitData := payload (formData c);
                  timeout := 15000 |}).

(** [error.response?.data?.error] *)
Definition responseError (error : AxiosError) : jsval :=
  match response error with
  | Some r => get (data r) "error"
  | None => Undefined
  end.

(** [error.response?.status === 413] *)
Definition status413 (error : AxiosError) : bool :=
  match response error with
  | Some r => (status r =? 413)%Z
  | None => false
  end.

(** The value of [errorMessage] at the end of the [catch] block. *)
Definition errorMessage (error : AxiosError) : jsval :=
  let errorMessage :=
    or_else (responseError error)
      (or_else (Str (message error)) (Str (str "Submission error"))) in
  if strict_eq (code error) (str "ECONNABORTED") then
    Str (str "Request timed out. Please try again.")
  else if status413 error then
    Str (str "File is too large. Maximum size is 5MB.")
  else if includes (str "Network Error") (message error) then
    Str (str "Network error. Please check your connection.")
  else errorMessage.

(** [handleSubmit] from the point where the awaited promise settles:
    the [try] or the [catch] block, then [finally]. The result is the
    delay of the [setTimeout] that was started, if one was. The reset of
    the file input element of the page is outside the state. *)
Definition handleSubmit_settled (r : Settled) : Handler (option Z) :=
  match r with
  | Fulfilled response =>
      setMessageType (str "success");;
      setSubmitMessage (get (data response) "message");;
      setFormData (fun _ => emptyForm)
  | Rejected error =>
      setMessageType (str "error");;
      setSubmitMessage (errorMessage error)
  end;;
  setIsSubmitting false;;
  c ← closure;
  if str_eqb (messageType c) (str "success") then mret (Some 5000%Z)
  else mret None.

(** The callback of that [setTimeout]. *)
Definition clearMessage : Handler unit := setSubmitMessage (Str (str "")).

(** ** The page over time

    Besides the state, the requests that were issued and have not
    settled (each with the state its [handleSubmit] closed over) and the
    timers that have not fired (each with the milliseconds left). *)
Record World : Type := mkWorld {
  state : State;
  inflight : list (State * Request);
  timers : list Z
}.

Definition initialWorld : World :=
  {| state := initialState; inflight := []; timers := [] |}.

Inductive Event : Type :=
| Change (target : TextInput) (value : jsstring)
| DragOver
| DragLeave
| Drop (first : option File)
| FileChange (first : option File)
| Submit
| Settle (k : nat) (r : Settled)
| Elapse (ms : Z).

Definition withState (w : World) (s : State) : World :=
  {| state := s; inflight := inflight w; timers := timers w |}.

(** The timers that are due fire, each running [clearMessage]. *)
Definition elapse (ms : Z) (w : World) : World :=
  let left := map (fun t => (t - ms)%Z) (timers w) in
  let due := filter (fun t => (t <= 0)%Z) left in
  {| state := fold_left (fun s _ => (run clearMessage s).2) due (state w);
     inflight := inflight w;
     timers := filter (fun t => (0 < t)%Z) left |}.

(** One event. The submit button is disabled while [isSubmitting], so
    the form is not submitted then; [Settle k] needs a [k]-th request in
    flight, and time does not run backwards. *)
Definition step (w : World) (ev : Event) : option World :=
  match ev with
  | Change target value =>
      Some (withState w (run (handleInputChange target value) (state w)).2)
  | DragOver => Some (withState w (run handleDragOver (state w)).2)
  | DragLeave => Some (withState w (run handleDragLeave (state w)).2)
  | Drop first => Some (withState w (run (handleDrop first) (state w)).2)
  | FileChange first =>
      Some (withState w (run (handleFileChange first) (state w)).2)
  | Submit =>
      if isSubmitting (state w) then None
      else
        let '(req, s) := run handleSubmit (state w) in
        Some {| state := s;
                inflight := inflight w
                            ++ match req with
                               | Some q => [(state w, q)]
                               | None => []
                               end;
                timers := timers w |}
  | Settle k r =>
      match inflight w !! k with
      | Some (c, _) =>
          let '(t, s) := handleSubmit_settled r c (state w) in
          Some {| state := s;
                  inflight := delete k (inflight w);
                  timers := timers w
                            ++ match t with
                               | Some d => [d]
                               | None => []
                               end |}
      | None => None
      end
  | Elapse ms => if (ms <? 0)%Z then None else Some (elapse ms w)
  end.

Fixpoint steps (w : World) (evs : list Event) : option World :=
  match evs with
  | [] => Some w
  | ev :: evs' =>
      match step w ev with
      | Some w' => steps w' evs'
      | None => None
      end
  end.

End Dashboard.

Import Dashboard.

(** * Notions used to state the properties *)

(** The number an age text denotes lies below 0 or above 150. *)
Definition outsideRange (n : jsnum) : Prop :=
  match n with
  | NaN => False
  | Inf _ => True
  | Fin q => (q < 0)%Q ∨ (150 < q)%Q
  end.

(** The number an age text denotes lies in the closed range. *)
Definition insideRange (n : jsnum) : Prop :=
  match n with
  | Fin q => (0 <= q)%Q ∧ (q <= 150)%Q
  | _ => False
  end.

(** The message [validateForm] reports for a name, rule by rule. *)
Definition nameError (n : jsstring) : option jsstring :=
  match trim n with
  | [] => Some (str "Name is required")
  | _ :: _ =>
      if (strlen n <? 2)%Z then
        Some (str "Name must be at least 2 characters")
      else if lettersAndSpaces n then None
      else Some (str "Name should only contain letters")
  end.

(** The message [validateForm] reports for an age, rule by rule. *)
Definition ageError (a : jsstring) : option jsstring :=
  match a with
  | [] => Some (str "Age is required")
  | _ :: _ =>
      if num_lt (ToNumber a) (Fin 0) || num_lt (Fin 150) (ToNumber a) then
        Some (str "Age must be between 0 and 150")
      else None
  end.

(** A name rule of [validateForm] fails. *)
Definition nameRuleFails (n : jsstring) : Prop :=
  trim n = [] ∨ (strlen n < 2)%Z
  ∨ ∃ c, c ∈ n ∧ isLetter c = false ∧ isWhiteSpace c = false.

(** An age rule of [validateForm] fails. *)
Definition ageRuleFails (a : jsstring) : Prop :=
  a = [] ∨ outsideRange (ToNumber a).

(** The submission status of [s'] is that of [s]. *)
Definition sameSubmission (s s' : State) : Prop :=
  isSubmitting s' = isSubmitting s
  ∧ submitMessage s' = submitMessage s
  ∧ messageType s' = messageType s.

(** [error.code] is the timeout code of axios. *)
Definition timedOut (e : AxiosError) : Prop :=
  code e = Str (str "ECONNABORTED").

(** The server answered with status 413. *)
Definition tooLarge (e : AxiosError) : Prop :=
  ∃ r, response e = Some r ∧ status r = 413%Z.

(** The error text is that of a transport failure of axios. *)
Definition networkFailure (e : AxiosError) : Prop :=
  ∃ a b, message e = a ++ str "Network Error" ++ b.

(** The [error] field of the JSON body of the response, if both are
    there. *)
Definition errorField (e : AxiosError) : option jsstring :=
  match response e with
  | Some r => data r !! "error"
  | None => None
  end.

(** The requests in flight are as many as [isSubmitting] says. *)
Definition inv (w : World) : Prop :=
  length (inflight w) = if isSubmitting (state w) then 1 else 0.

(** * Inputs used as examples *)

(** A filled-in form: the state after typing a name and an age. *)
Definition filled (n a : string) : State :=
  (run (handleInputChange AgeInput (str a))
     (run (handleInputChange NameInput (str n)) initialState).2).2.

(** A file that is not a PDF, JPEG or PNG. *)
Definition notesTxt : File :=
  {| file_name := str "notes.txt"; file_type := str "text/plain";
     file_size := 1024 |}.

(** A JPEG picture of 6 000 000 bytes. *)
Definition largeScan : File :=
  {| file_name := str "scan.jpg"; file_type := str "image/jpeg";
     file_size := 6000000 |}.

(** A text file of 6 000 000 bytes. *)
Definition largeText : File :=
  {| file_name := str "dump.txt"; file_type := str "text/plain";
     file_size := 6000000 |}.

(** A 400 answer whose body carries [error] as the given text. *)
Definition badRequest (text : string) : AxiosError :=
  {| code := Str (str "ERR_BAD_REQUEST");
     message := str "Request failed with status code 400";
     response := Some {| status := 400; data := {["error" := str text]} |} |}.

(** A 200 answer with the given [message]. *)
Definition ok200 (text : string) : Settled :=
  Fulfilled {| status := 200; data := {["message" := str text]} |}.

(** Filling in the form, submitting it, the server accepting it, and
    five seconds going by. *)
Definition firstSubmission : list Event :=
  [Change NameInput (str "Jane Doe"); Change AgeInput (str "34"); Submit;
   Settle 0 (ok200 "Form submitted successfully"); Elapse 5000].

(** The page with the form filled in, and after its submission. *)
Definition filledWorld : World :=
  withState initialWorld (filled "Jane Doe" "34").

Definition submittedWorld : World :=
  default filledWorld (step filledWorld Submit).

(** * The rendered page

    What the JSX returned by the component shows of a state: the two
    text inputs with their border and error paragraph, the drop zone, the
    submit button and the message banner. A paragraph guarded by
    [x && ...] is rendered when [x] is truthy. *)

Inductive Border : Type := BorderRed | BorderGray.

Inductive Zone : Type := ZoneBlue | ZoneRed | ZoneGray.

Inductive Tone : Type := TextRed | TextGreen.

Inductive Icon : Type := AlertCircle | CheckCircle2.

Record Page : Type := mkPage {
  nameValue : jsstring;
  nameBorder : Border;
  nameErrorText : option jsstring;
  ageValue : jsstring;
  ageBorder : Border;
  ageErrorText : option jsstring;
  dropZone : Zone;
  selectedFile : option jsstring;
  fileErrorText : option jsstring;
  buttonDisabled : bool;
  buttonSubmitting : bool;
  banner : option (Tone * Icon * jsstring)
}.

(** [{x && <p>{x}</p>}] *)
Definition shown (v : jsval) : option jsstring :=
  match v with
  | Str (c :: s) => Some (c :: s)
  | _ => None
  end.

Definition borderOf (v : jsval) : Border :=
  if truthy v then BorderRed else BorderGray.

Definition render (s : State) : Page :=
  {| nameValue := name (formData s);
     nameBorder := borderOf (get (errors s) "name");
     nameErrorText := shown (get (errors s) "name");
     ageValue := age (formData s);
     ageBorder := borderOf (get (errors s) "age");
     ageErrorText := shown (get (errors s) "age");
     dropZone := if isDragging s then ZoneBlue
                 else if truthy (get (errors s) "file") then ZoneRed
                 else ZoneGray;
     selectedFile := match file (formData s) with
                     | Some f => Some (file_name f)
                     | None => None
                     end;
     fileErrorText := shown (get (errors s) "file");
     buttonDisabled := isSubmitting s;
     buttonSubmitting := isSubmitting s;
     banner := match shown (submitMessage s) with
               | Some m =>
                   if str_eqb (messageType s) (str "error")
                   then Some (TextRed, AlertCircle, m)
                   else Some (TextGreen, CheckCircle2, m)
               | None => None
               end |}.

(** * Further notions *)

(** A file that passes both tests of [handleFileSelection]. *)
Definition validFile (f : File) : Prop :=
  file_type f ∈ allowedTypes ∧ (file_size f ≤ maxSize)%Z.

(** The form data a payload was built from, read back from its parts. *)
Definition readPayload (p : list (string * Part)) : option FormData :=
  match p with
  | [(_, Text n); (_, Text a)] =>
      Some {| name := n; age := a; file := None |}
  | [(_, Text n); (_, Text a); (_, Blob f)] =>
      Some {| name := n; age := a; file := Some f |}
  | _ => None
  end.

(** The request [handleSubmit] issues for a form. *)
Definition requestFor (fd : FormData) : Request :=
  {| url := str "http://localhost:5000/api/form";
     submitData := payload fd;
     timeout := 15000 |}.

(** A name is made of white space only. *)
Definition blank (n : jsstring) : Prop :=
  ∀ c, c ∈ n → isWhiteSpace c = true.

(** A form that passes [validateForm] and whose file, if any, passed
    [handleFileSelection]. *)
Definition goodForm (fd : FormData) : Prop :=
  ¬ nameRuleFails (name fd) ∧ ¬ ageRuleFails (age fd)
  ∧ ∀ f, file fd = Some f → validFile f.

(** The stored file is valid, and so is every form whose request is in
    flight, the request being the one built from that form. *)
Definition sound (w : World) : Prop :=
  (∀ f, file (formData (state w)) = Some f → validFile f)
  ∧ Forall (λ cq, cq.2 = requestFor (formData cq.1) ∧ goodForm (formData cq.1))
      (inflight w).

(** The banner agrees with the submission status. *)
Definition coherent (s : State) : Prop :=
  (isSubmitting s = true → submitMessage s = Str (str ""))
  ∧ (truthy (submitMessage s) = true →
     messageType s = str "error" ∨ messageType s = str "success")
  ∧ (messageType s = str "" ∨ messageType s = str "error"
     ∨ messageType s = str "success").

(** A PNG picture of exactly 5242880 bytes, and the page after it was
    dropped on the drop zone. *)
Definition smallScan : File :=
  {| file_name := str "scan.png"; file_type := str "image/png";
     file_size := 5242880 |}.

Definition droppedWorld : World :=
  default initialWorld (steps initialWorld [Drop (Some smallScan)]).

(** The text is a non-empty run of the digits 0 to 9. *)
Definition wholeNumber (s : jsstring) : Prop :=
  s ≠ [] ∧ ∀ c, c ∈ s → (48 ≤ c ≤ 57)%N.

(** The number such a text writes in base ten. *)
Definition decimalValue (s : jsstring) : Z :=
  fold_left (λ acc c, (acc * 10 + (Z.of_N c - 48))%Z) s 0%Z.

(** * Properties *)

(** ** The string and number primitives on examples *)

Example trim_example : trim (str "  Jane Doe ") = str "Jane Doe".
Proof. reflexivity. Qed.

Example ToNumber_examples :
  ToNumber (str "34") = Fin 34
  ∧ ToNumber (str " 150.0 ") = Fin 150
  ∧ ToNumber (str "1e2") = Fin 100
  ∧ ToNumber (str "-1") = Fin (-1)
  ∧ ToNumber (str "0x1F") = Fin 31
  ∧ ToNumber (str "") = Fin 0
  ∧ ToNumber (str "12abc") = NaN
  ∧ ToNumber (str "1e400") = Inf false
  ∧ ToNumber (str "9007199254740993") = Fin 9007199254740992
  ∧ ToNumber (str "0.5") = Fin (1 # 2)
  ∧ ToNumber (str "150.00000000000001") = Fin 150.
Proof. repeat split; vm_compute; reflexivity. Qed.

Example includes_example :
  includes (str "Network Error") (str "Network Error") = true
  ∧ includes (str "Network Error") (str "timeout of 15000ms exceeded") = false.
Proof. split; reflexivity. Qed.

(** ** Strings and maps *)

Section StringFacts.

Lemma str_eqb_eq (a b : jsstring) : str_eqb a b = true ↔ a = b.
Proof.
  revert b. induction a as [|x a IH]; intros [|y b]; simpl; try easy.
  rewrite andb_true_iff, N.eqb_eq, IH. split.
  - intros [-> ->]. reflexivity.
  - intros [= -> ->]. auto.
Qed.

Lemma str_eqb_refl (a : jsstring) : str_eqb a a = true.
Proof. apply str_eqb_eq. reflexivity. Qed.

Lemma existsb_str_eqb (a : jsstring) (l : list jsstring) :
  existsb (str_eqb a) l = true ↔ a ∈ l.
Proof.
  rewrite existsb_exists, list_elem_of_In. split.
  - intros (x & Hx & E). apply str_eqb_eq in E. subst. exact Hx.
  - intros H. exists a. split; [exact H | apply str_eqb_refl].
Qed.

Lemma startsWith_app (p s : jsstring) :
  startsWith p s = true ↔ ∃ b, s = p ++ b.
Proof.
  revert s. induction p as [|x p IH]; intros s; simpl.
  - split; [intros _; exists s; reflexivity | reflexivity].
  - destruct s as [|y s]; simpl.
    + split; [discriminate | intros [b [=]]].
    + rewrite andb_true_iff, N.eqb_eq, IH. split.
      * intros [-> [b ->]]. exists b. reflexivity.
      * intros [b [= -> ->]]. split; [reflexivity | exists b; reflexivity].
Qed.

(** [includes] finds exactly the strings that have [p] as a substring. *)
Lemma includes_substring (p s : jsstring) :
  includes p s = true ↔ ∃ a b, s = a ++ p ++ b.
Proof.
  induction s as [|y s IH].
  - simpl. rewrite orb_false_r, startsWith_app. split.
    + intros [b E]. exists [], b. exact E.
    + intros (a & b & E). destruct a as [|? a]; [exists b; exact E|].
      discriminate E.
  - cbn [includes]. rewrite orb_true_iff, startsWith_app, IH. split.
    + intros [[b E] | (a & b & E)].
      * exists [], b. exact E.
      * exists (y :: a), b. rewrite E. reflexivity.
    + intros (a & b & E). destruct a as [|x a].
      * left. exists b. exact E.
      * right. injection E as -> E. exists a, b. exact E.
Qed.

Lemma lettersAndSpaces_forall (s : jsstring) :
  lettersAndSpaces s = true ↔
  ∀ c, c ∈ s → isLetter c = true ∨ isWhiteSpace c = true.
Proof.
  unfold lettersAndSpaces. rewrite forallb_forall. split.
  - intros H c Hc. apply orb_true_iff, H, list_elem_of_In, Hc.
  - intros H c Hc. apply orb_true_iff, H, list_elem_of_In, Hc.
Qed.

Lemma lettersAndSpaces_exists (s : jsstring) :
  lettersAndSpaces s = false ↔
  ∃ c, c ∈ s ∧ isLetter c = false ∧ isWhiteSpace c = false.
Proof.
  unfold lettersAndSpaces. induction s as [|x s IH]; simpl.
  - split; [discriminate | intros (c & Hc & _)]. inversion Hc.
  - rewrite andb_false_iff, orb_false_iff, IH. split.
    + intros [E | (c & Hc & E)].
      * exists x. split; [constructor | exact E].
      * exists c. split; [constructor; exact Hc | exact E].
    + intros (c & Hc & E). inversion Hc; subst.
      * left. exact E.
      * right. exists c. split; assumption.
Qed.

Lemma noKeys_empty (o : gmap string jsstring) : noKeys o = true ↔ o = ∅.
Proof.
  unfold noKeys. rewrite Nat.eqb_eq, length_fmap. split.
  - intros H. apply map_to_list_empty_iff, nil_length_inv, H.
  - intros ->. rewrite map_to_list_empty. reflexivity.
Qed.

End StringFacts.

(** ** validateForm *)

Section Validation.

Lemma newErrors_name (fd : FormData) :
  newErrors fd !! "name" = nameError (name fd).
Proof.
  unfold newErrors, nameError.
  destruct (trim (name fd)) as [|c t], (age fd) as [|d a]; simpl;
    repeat case_match; simplify_map_eq; reflexivity.
Qed.

Lemma newErrors_age (fd : FormData) :
  newErrors fd !! "age" = ageError (age fd).
Proof.
  unfold newErrors, ageError.
  destruct (trim (name fd)) as [|c t], (age fd) as [|d a]; simpl;
    repeat case_match; simplify_map_eq; reflexivity.
Qed.

Lemma newErrors_other (fd : FormData) (k : string) :
  k ≠ "name" → k ≠ "age" → newErrors fd !! k = None.
Proof.
  intros Hn Ha. unfold newErrors.
  repeat case_match; simplify_map_eq; reflexivity.
Qed.

Lemma newErrors_empty (fd : FormData) :
  newErrors fd = ∅ ↔ nameError (name fd) = None ∧ ageError (age fd) = None.
Proof.
  rewrite <- newErrors_name, <- newErrors_age. split.
  - intros ->. split; apply lookup_empty.
  - intros [Hn Ha]. apply map_eq. intros k. rewrite lookup_empty.
    destruct (decide (k = "name")) as [->|]; [exact Hn|].
    destruct (decide (k = "age")) as [->|]; [exact Ha|].
    apply newErrors_other; assumption.
Qed.

(** [validateForm] replaces [errors] by [newErrors] and answers whether
    that object has no key; nothing else changes. *)
Lemma validateForm_run (c s : State) :
  validateForm c s
  = (noKeys (newErrors (formData c)),
     {| formData := formData s; errors := newErrors (formData c);
        isSubmitting := isSubmitting s; submitMessage := submitMessage s;
        messageType := messageType s; isDragging := isDragging s |}).
Proof. reflexivity. Qed.

Lemma range_test (n : jsnum) :
  num_lt n (Fin 0) || num_lt (Fin 150) n = true ↔ outsideRange n.
Proof.
  destruct n as [| [|] | q]; simpl; try easy.
  rewrite orb_true_iff, (Qlt_alt q 0), (Qlt_alt 150 q).
  destruct (q ?= 0)%Q, (150 ?= q)%Q; intuition congruence.
Qed.

Lemma outsideRange_dec (n : jsnum) : outsideRange n ∨ ¬ outsideRange n.
Proof.
  rewrite <- range_test.
  destruct (num_lt n (Fin 0) || num_lt (Fin 150) n); [left | right]; easy.
Qed.

Lemma inside_not_outside (n : jsnum) : insideRange n → ¬ outsideRange n.
Proof.
  destruct n as [| b | q]; simpl; try easy.
  intros [H0 H1] [H | H].
  - exact (Qlt_not_le _ _ H H0).
  - exact (Qlt_not_le _ _ H H1).
Qed.

Lemma ageError_spec (a : jsstring) :
  (a = [] → ageError a = Some (str "Age is required")) ∧
  (a ≠ [] → outsideRange (ToNumber a) →
   ageError a = Some (str "Age must be between 0 and 150")) ∧
  (a ≠ [] → ¬ outsideRange (ToNumber a) → ageError a = None).
Proof.
  unfold ageError. destruct a as [|d a]; [easy|].
  pose proof (range_test (ToNumber (d :: a))) as R.
  destruct (num_lt _ _ || num_lt _ _).
  - repeat split; try easy. intros _ H. destruct H. apply R. reflexivity.
  - repeat split; try easy. intros _ H. apply R in H. discriminate H.
Qed.

End Validation.

Section ValidationClaims.

(** C3, as amended: [validateForm] sets the name error by the ordered
    rules: a name that is empty after trimming gives "Name is required";
    otherwise a name of fewer than 2 code units, white space included
    (the length is that of the untrimmed text), gives "Name must be at
    least 2 characters"; otherwise a name with a character that is
    neither a letter a-z, A-Z nor white space gives "Name should only
    contain letters"; and a name of letters and white space only, of
    length at least 2 and not empty after trimming, gets no name error. *)
Theorem validateForm_name_rules (s : State) :
  let n := name (formData s) in
  let e := errors (run validateForm s).2 in
  (trim n = [] → e !! "name" = Some (str "Name is required")) ∧
  (trim n ≠ [] → (strlen n < 2)%Z →
   e !! "name" = Some (str "Name must be at least 2 characters")) ∧
  (trim n ≠ [] → (2 ≤ strlen n)%Z →
   (∃ c, c ∈ n ∧ isLetter c = false ∧ isWhiteSpace c = false) →
   e !! "name" = Some (str "Name should only contain letters")) ∧
  ((∀ c, c ∈ n → isLetter c = true ∨ isWhiteSpace c = true) →
   (2 ≤ strlen n)%Z → trim n ≠ [] → e !! "name" = None).
Proof.
  intros n e. subst e. unfold run. rewrite validateForm_run. simpl.
  rewrite newErrors_name. fold n. unfold nameError.
  destruct (trim n) as [|c t] eqn:T.
  - repeat split; intros; congruence.
  - destruct (Z.ltb_spec (strlen n) 2) as [L|L].
    + repeat split; intros; try congruence; lia.
    + destruct (lettersAndSpaces n) eqn:R.
      * repeat split; try congruence; try lia.
        intros _ _ Hc. apply lettersAndSpaces_exists in Hc. congruence.
      * repeat split; try congruence; try lia.
        intros Hc _ _. apply lettersAndSpaces_forall in Hc. congruence.
Qed.

Lemma validateForm_name_rules_witness :
  errors (run validateForm (filled "J" "34")).2 !! "name"
  = Some (str "Name must be at least 2 characters").
Proof.
  apply (proj1 (proj2 (validateForm_name_rules (filled "J" "34")))).
  - discriminate.
  - reflexivity.
Defined.

(** C3 as stated fails: the name "a" followed by a space is not empty
    after trimming and its trimmed length is 1, yet [validateForm]
    reports no name error for it. *)
Lemma name_trimmed_length_counterexample :
  let s := filled "a " "34" in
  trim (name (formData s)) ≠ []
  ∧ (strlen (trim (name (formData s))) < 2)%Z
  ∧ errors (run validateForm s).2 !! "name" = None.
Proof. repeat split; [discriminate | vm_compute; reflexivity ..]. Qed.

(** C5: [validateForm] sets the age error by the rules: an empty age
    gives "Age is required"; otherwise an age whose number is below 0 or
    above 150 gives "Age must be between 0 and 150"; an age whose number
    lies in the closed range from 0 to 150 gets no age error; and an age
    error is reported exactly for the empty and the out-of-range ages. *)
Theorem validateForm_age_rules (s : State) :
  let a := age (formData s) in
  let e := errors (run validateForm s).2 in
  (a = [] → e !! "age" = Some (str "Age is required")) ∧
  (a ≠ [] → outsideRange (ToNumber a) →
   e !! "age" = Some (str "Age must be between 0 and 150")) ∧
  (a ≠ [] → insideRange (ToNumber a) → e !! "age" = None) ∧
  (is_Some (e !! "age") ↔ a = [] ∨ outsideRange (ToNumber a)).
Proof.
  intros a e. subst e. unfold run. rewrite validateForm_run. simpl.
  rewrite newErrors_age. fold a.
  destruct (ageError_spec a) as (E1 & E2 & E3).
  split; [exact E1|]. split; [exact E2|]. split.
  - intros Ha Hin. apply E3; [exact Ha | apply inside_not_outside, Hin].
  - split.
    + intros Hs. destruct a as [|d a']; [left; reflexivity|]. right.
      destruct (outsideRange_dec (ToNumber (d :: a'))) as [H|H];
        [exact H|].
      rewrite E3 in Hs by easy. destruct Hs as [? [=]].
    + intros [-> | H].
      * rewrite E1 by reflexivity. eexists. reflexivity.
      * destruct a as [|d a'].
        -- rewrite E1 by reflexivity. eexists. reflexivity.
        -- rewrite E2 by easy. eexists. reflexivity.
Qed.

Lemma validateForm_age_rules_witness :
  errors (run validateForm (filled "Jane Doe" "151")).2 !! "age"
  = Some (str "Age must be between 0 and 150").
Proof.
  apply (proj1 (proj2 (validateForm_age_rules (filled "Jane Doe" "151")))).
  - discriminate.
  - vm_compute. right. reflexivity.
Defined.

(** An age that is no number, which the number input of the page never
    yields, compares false with both bounds and gets no age error. *)
Lemma validateForm_age_not_a_number :
  ToNumber (str "abc") = NaN
  ∧ errors (run validateForm (filled "Jane Doe" "abc")).2 !! "age" = None.
Proof. split; vm_compute; reflexivity. Qed.

(** The bounds themselves are accepted, the numbers next to them are
    not. *)
Example validateForm_age_bounds :
  errors (run validateForm (filled "Jane Doe" "0")).2 !! "age" = None
  ∧ errors (run validateForm (filled "Jane Doe" "150")).2 !! "age" = None
  ∧ errors (run validateForm (filled "Jane Doe" "-1")).2 !! "age"
    = Some (str "Age must be between 0 and 150")
  ∧ errors (run validateForm (filled "Jane Doe" "150.5")).2 !! "age"
    = Some (str "Age must be between 0 and 150")
  ∧ errors (run validateForm (filled "Jane Doe" "")).2 !! "age"
    = Some (str "Age is required").
Proof. repeat split; vm_compute; reflexivity. Qed.

End ValidationClaims.

Section SubmitFacts.

(** [handleSubmit] up to the [await], spelled out. *)
Lemma handleSubmit_run (c s : State) :
  handleSubmit c s
  = if noKeys (newErrors (formData c)) then
      (Some {| url := str "http://localhost:5000/api/form";
               submitData := payload (formData c);
               timeout := 15000 |},
       {| formData := formData s; errors := newErrors (formData c);
          isSubmitting := true; submitMessage := Str (str "");
          messageType := messageType s; isDragging := isDragging s |})
    else
      (None,
       {| formData := formData s; errors := newErrors (formData c);
          isSubmitting := isSubmitting s;
          submitMessage :=
            Str (str "Please fix the errors before submitting.");
          messageType := str "error"; isDragging := isDragging s |}).
Proof.
  unfold handleSubmit, mbind, handler_bind. rewrite validateForm_run.
  destruct (noKeys (newErrors (formData c))); reflexivity.
Qed.

(** [handleSubmit] once the promise has settled, spelled out. *)
Lemma handleSubmit_settled_run (r : Settled) (c s : State) :
  handleSubmit_settled r c s
  = (if str_eqb (messageType c) (str "success") then Some 5000%Z else None,
     match r with
     | Fulfilled response =>
         {| formData := emptyForm; errors := errors s;
            isSubmitting := false;
            submitMessage := get (data response) "message";
            messageType := str "success"; isDragging := isDragging s |}
     | Rejected error =>
         {| formData := formData s; errors := errors s;
            isSubmitting := false; submitMessage := errorMessage error;
            messageType := str "error"; isDragging := isDragging s |}
     end).
Proof.
  unfold handleSubmit_settled, mbind, handler_bind.
  destruct r; simpl; destruct (str_eqb (messageType c) _); reflexivity.
Qed.

End SubmitFacts.

Section ValidityClaim.

Lemma nameError_None (n : jsstring) :
  nameError n = None ↔ ¬ nameRuleFails n.
Proof.
  unfold nameError, nameRuleFails. rewrite <- lettersAndSpaces_exists.
  destruct (trim n) as [|c t]; [intuition congruence|].
  destruct (Z.ltb_spec (strlen n) 2) as [L|L]; [intuition congruence|].
  destruct (lettersAndSpaces n); [|intuition congruence].
  split; [|reflexivity]. intros _ [H | [H | H]]; [discriminate | lia | discriminate].
Qed.

Lemma ageError_None (a : jsstring) :
  ageError a = None ↔ ¬ ageRuleFails a.
Proof.
  unfold ageRuleFails. destruct (ageError_spec a) as (E1 & E2 & E3).
  destruct a as [|d a]; [rewrite E1 by reflexivity; intuition congruence|].
  destruct (outsideRange_dec (ToNumber (d :: a))) as [H|H].
  - rewrite E2 by easy. intuition congruence.
  - rewrite E3 by easy. intuition congruence.
Qed.

(** C1, as amended: [validateForm] returns true exactly when neither a
    name rule nor an age rule fails, whatever [errors] holds (an entry
    [errors.file] left by an earlier file selection does not count); and
    in every state in which a name or an age rule fails, [handleSubmit]
    issues no request and sets the message to the error "Please fix the
    errors before submitting." *)
Theorem validateForm_true_iff_rules (s : State) :
  let fd := formData s in
  ((run validateForm s).1 = true
   ↔ ¬ nameRuleFails (name fd) ∧ ¬ ageRuleFails (age fd))
  ∧ (nameRuleFails (name fd) ∨ ageRuleFails (age fd) →
     (run handleSubmit s).1 = None
     ∧ submitMessage (run handleSubmit s).2
       = Str (str "Please fix the errors before submitting.")
     ∧ messageType (run handleSubmit s).2 = str "error").
Proof.
  intros fd. unfold run. rewrite validateForm_run, handleSubmit_run.
  fold fd. cbn [fst].
  assert (noKeys (newErrors fd) = true
          ↔ ¬ nameRuleFails (name fd) ∧ ¬ ageRuleFails (age fd)) as K.
  { rewrite noKeys_empty, newErrors_empty, nameError_None, ageError_None.
    reflexivity. }
  split; [exact K|]. intros F.
  destruct (noKeys (newErrors fd)).
  - destruct (proj1 K eq_refl) as [Hn Ha]. destruct F; contradiction.
  - repeat split.
Qed.

Lemma validateForm_true_iff_rules_witness :
  (run handleSubmit (filled "" "34")).1 = None
  ∧ submitMessage (run handleSubmit (filled "" "34")).2
    = Str (str "Please fix the errors before submitting.")
  ∧ messageType (run handleSubmit (filled "" "34")).2 = str "error".
Proof.
  apply (proj2 (validateForm_true_iff_rules (filled "" "34"))).
  left. left. reflexivity.
Defined.

(** C1 as stated fails: after a text file was refused, [errors.file]
    is not empty; with a valid name and age [validateForm] returns true
    all the same, and [handleSubmit] issues the request instead of
    setting the "Please fix the errors" message. *)
Lemma file_error_blocks_submit_counterexample :
  let s := (run (handleFileSelection notesTxt) (filled "Jane Doe" "34")).2 in
  truthy (get (errors s) "file") = true
  ∧ (run validateForm s).1 = true
  ∧ is_Some (run handleSubmit s).1
  ∧ submitMessage (run handleSubmit s).2 = Str (str "")
  ∧ isSubmitting (run handleSubmit s).2 = true.
Proof.
  repeat split; try (vm_compute; reflexivity).
  vm_compute. eexists. reflexivity.
Qed.

End ValidityClaim.

Section FileSelection.

(** [handleFileSelection], spelled out. *)
Lemma handleFileSelection_run (f : File) (c s : State) :
  (handleFileSelection f c s).2
  = if negb (existsb (str_eqb (file_type f)) allowedTypes) then
      {| formData := formData s;
         errors := <["file" := str "Only PDF, JPEG, and PNG files are allowed"]>
                     (errors s);
         isSubmitting := isSubmitting s; submitMessage := submitMessage s;
         messageType := messageType s; isDragging := isDragging s |}
    else if (maxSize <? file_size f)%Z then
      {| formData := formData s;
         errors := <["file" := str "File size should be less than 5MB"]>
                     (errors s);
         isSubmitting := isSubmitting s; submitMessage := submitMessage s;
         messageType := messageType s; isDragging := isDragging s |}
    else
      {| formData := {| name := name (formData s); age := age (formData s);
                        file := Some f |};
         errors := <["file" := str ""]> (errors s);
         isSubmitting := isSubmitting s; submitMessage := submitMessage s;
         messageType := messageType s; isDragging := isDragging s |}.
Proof.
  unfold handleFileSelection.
  destruct (negb _); [reflexivity|].
  destruct (maxSize <? file_size f)%Z; reflexivity.
Qed.

Lemma allowed_test (f : File) :
  negb (existsb (str_eqb (file_type f)) allowedTypes) = false
  ↔ file_type f ∈ allowedTypes.
Proof. rewrite negb_false_iff. apply existsb_str_eqb. Qed.

(** C7: a candidate whose MIME type is none of application/pdf,
    image/jpeg and image/png is rejected: [errors.file] becomes "Only
    PDF, JPEG, and PNG files are allowed" and the form data, the stored
    file included, is what it was before the call. *)
Theorem handleFileSelection_type_rejected (s : State) (f : File) :
  file_type f ∉ [str "application/pdf"; str "image/jpeg"; str "image/png"] →
  let s' := (run (handleFileSelection f) s).2 in
  errors s' !! "file"
  = Some (str "Only PDF, JPEG, and PNG files are allowed")
  ∧ file (formData s') = file (formData s)
  ∧ formData s' = formData s.
Proof.
  intros Hty s'. subst s'. unfold run. rewrite handleFileSelection_run.
  destruct (negb _) eqn:A.
  - simpl. rewrite lookup_insert_eq. repeat split.
  - apply allowed_test in A. contradiction.
Qed.

Lemma handleFileSelection_type_rejected_witness :
  errors (run (handleFileSelection notesTxt) (filled "Jane Doe" "34")).2
    !! "file"
  = Some (str "Only PDF, JPEG, and PNG files are allowed")
  ∧ file (formData
            (run (handleFileSelection notesTxt) (filled "Jane Doe" "34")).2)
    = file (formData (filled "Jane Doe" "34"))
  ∧ formData (run (handleFileSelection notesTxt) (filled "Jane Doe" "34")).2
    = formData (filled "Jane Doe" "34").
Proof.
  apply (handleFileSelection_type_rejected (filled "Jane Doe" "34") notesTxt).
  vm_compute. intros H.
  repeat (apply elem_of_cons in H; destruct H as [H|H]; [discriminate H|]).
  inversion H.
Defined.

(** C2, as amended: a candidate of more than 5242880 bytes is rejected
    whatever its type: the form data, the stored file included, is
    unchanged and [errors.file] is set to a non-empty message, which is
    "File size should be less than 5MB" when the MIME type is one of the
    three allowed ones (the type is looked at first). A candidate of at
    most 5242880 bytes is not rejected by the size rule: the size
    message is not set, and with an allowed type the candidate becomes
    the stored file. *)
Theorem handleFileSelection_size_rule (s : State) (f : File) :
  let allowed :=
    [str "application/pdf"; str "image/jpeg"; str "image/png"] in
  let s' := (run (handleFileSelection f) s).2 in
  ((5242880 < file_size f)%Z →
   formData s' = formData s
   ∧ truthy (get (errors s') "file") = true
   ∧ (file_type f ∈ allowed →
      errors s' !! "file" = Some (str "File size should be less than 5MB")))
  ∧ ((file_size f ≤ 5242880)%Z →
     errors s' !! "file" ≠ Some (str "File size should be less than 5MB")
     ∧ (file_type f ∈ allowed →
        file (formData s') = Some f ∧ errors s' !! "file" = Some (str ""))).
Proof.
  intros allowed s'. subst s'. unfold run. rewrite handleFileSelection_run.
  change allowed with allowedTypes. unfold get.
  destruct (negb _) eqn:A.
  - apply negb_true_iff in A.
    assert (file_type f ∉ allowedTypes) as N.
    { intros H. apply existsb_str_eqb in H. congruence. }
    simpl. rewrite lookup_insert_eq. split; intros _.
    + repeat split. intros H. contradiction.
    + split; [discriminate | intros H; contradiction].
  - unfold maxSize. destruct (Z.ltb_spec (5 * 1024 * 1024) (file_size f)) as [L|L];
      simpl; rewrite lookup_insert_eq; split; intros S; try lia.
    + repeat split.
    + split; [discriminate | repeat split].
Qed.

Lemma handleFileSelection_size_rule_witness :
  formData (run (handleFileSelection largeScan) initialState).2
  = formData initialState
  ∧ truthy (get (errors (run (handleFileSelection largeScan) initialState).2)
              "file") = true
  ∧ (file_type largeScan
       ∈ [str "application/pdf"; str "image/jpeg"; str "image/png"] →
     errors (run (handleFileSelection largeScan) initialState).2 !! "file"
     = Some (str "File size should be less than 5MB")).
Proof.
  apply (proj1 (handleFileSelection_size_rule initialState largeScan)).
  reflexivity.
Defined.

(** C2 as stated fails: a text file of more than 5242880 bytes is
    refused with the message about the type, not the one about the
    size. *)
Lemma size_message_regardless_of_type_counterexample :
  (5242880 < file_size largeText)%Z
  ∧ errors (run (handleFileSelection largeText) initialState).2 !! "file"
    = Some (str "Only PDF, JPEG, and PNG files are allowed")
  ∧ errors (run (handleFileSelection largeText) initialState).2 !! "file"
    ≠ Some (str "File size should be less than 5MB").
Proof.
  split; [reflexivity|]. split; [vm_compute; reflexivity|].
  vm_compute. discriminate.
Qed.

End FileSelection.

Section Frame.

Lemma handleInputChange_run (target : TextInput) (value : jsstring)
    (c s : State) :
  (handleInputChange target value c s).2
  = {| formData := withField target value (formData s);
       errors := if truthy (get (errors c) (inputName target))
                 then <[inputName target := str ""]> (errors s)
                 else errors s;
       isSubmitting := isSubmitting s; submitMessage := submitMessage s;
       messageType := messageType s; isDragging := isDragging s |}.
Proof.
  unfold handleInputChange, mbind, handler_bind. simpl.
  destruct (truthy _); reflexivity.
Qed.

Lemma handleFileSelection_same (f : File) (c s : State) :
  sameSubmission s (handleFileSelection f c s).2.
Proof.
  rewrite handleFileSelection_run.
  destruct (negb _); [|destruct (_ <? _)%Z]; repeat split.
Qed.

Lemma handleInputChange_same (target : TextInput) (value : jsstring)
    (c s : State) :
  sameSubmission s (handleInputChange target value c s).2.
Proof. rewrite handleInputChange_run. repeat split. Qed.

Lemma validateForm_same (c s : State) :
  sameSubmission s (validateForm c s).2.
Proof. rewrite validateForm_run. repeat split. Qed.

Lemma setIsDragging_same (b : bool) (c s : State) :
  sameSubmission s (setIsDragging b c s).2.
Proof. repeat split. Qed.

Lemma handleDrop_same (first : option File) (c s : State) :
  sameSubmission s (handleDrop first c s).2.
Proof.
  destruct first as [f|]; [|repeat split].
  change (handleDrop (Some f) c s)
    with (handleFileSelection f c (setIsDragging false c s).2).
  destruct (handleFileSelection_same f c (setIsDragging false c s).2)
    as (E1 & E2 & E3).
  repeat split; assumption.
Qed.

Lemma handleFileChange_same (first : option File) (c s : State) :
  sameSubmission s (handleFileChange first c s).2.
Proof.
  destruct first as [f|]; [apply handleFileSelection_same | repeat split].
Qed.

(** C10: [handleInputChange], [handleFileSelection] and [validateForm]
    leave [isSubmitting], [submitMessage] and [messageType] as they
    were, in whatever render they run; so do the drag-and-drop and file
    input handlers, which leaves [handleSubmit] (and the timer it
    starts) as the only writer of the three. *)
Theorem other_handlers_keep_submission (c s : State) :
  (∀ target value, sameSubmission s (handleInputChange target value c s).2)
  ∧ (∀ f, sameSubmission s (handleFileSelection f c s).2)
  ∧ sameSubmission s (validateForm c s).2
  ∧ sameSubmission s (handleDragOver c s).2
  ∧ sameSubmission s (handleDragLeave c s).2
  ∧ (∀ first, sameSubmission s (handleDrop first c s).2)
  ∧ (∀ first, sameSubmission s (handleFileChange first c s).2).
Proof.
  split; [|split; [|split; [|split; [|split; [|split]]]]].
  - intros target value. apply handleInputChange_same.
  - intros f. apply handleFileSelection_same.
  - apply validateForm_same.
  - apply setIsDragging_same.
  - apply setIsDragging_same.
  - intros first. apply handleDrop_same.
  - intros first. apply handleFileChange_same.
Qed.

End Frame.

Section ErrorMessage.

Lemma strict_eq_Str (v : jsval) (s : jsstring) :
  strict_eq v s = true ↔ v = Str s.
Proof.
  destruct v as [|x]; simpl; [easy|]. rewrite str_eqb_eq.
  split; [intros ->; reflexivity | intros [= ->]; reflexivity].
Qed.

Lemma status413_tooLarge (e : AxiosError) :
  status413 e = true ↔ tooLarge e.
Proof.
  unfold status413, tooLarge. destruct (response e) as [r|].
  - rewrite Z.eqb_eq. split.
    + intros H. exists r. split; [reflexivity | exact H].
    + intros (r' & [= <-] & H). exact H.
  - split; [discriminate | intros (r & [=] & _)].
Qed.

(** C6, as amended: the message of a failed request is chosen in this
    order: (1) the timeout code gives "Request timed out. Please try
    again."; (2) status 413 gives "File is too large. Maximum size is
    5MB."; (3) a transport failure (error text containing "Network
    Error") gives "Network error. Please check your connection."; (4) a
    non-empty [error] field of the JSON response body gives that field;
    (5) otherwise, the [error] field being absent or empty, the error
    text if it is not empty, and "Submission error" if it is. *)
Theorem errorMessage_priority (e : AxiosError) :
  (timedOut e →
   errorMessage e = Str (str "Request timed out. Please try again."))
  ∧ (¬ timedOut e → tooLarge e →
     errorMessage e = Str (str "File is too large. Maximum size is 5MB."))
  ∧ (¬ timedOut e → ¬ tooLarge e → networkFailure e →
     errorMessage e
     = Str (str "Network error. Please check your connection."))
  ∧ (¬ timedOut e → ¬ tooLarge e → ¬ networkFailure e →
     (∀ v, errorField e = Some v → v ≠ [] → errorMessage e = Str v)
     ∧ (errorField e = None ∨ errorField e = Some [] →
        (message e ≠ [] → errorMessage e = Str (message e))
        ∧ (message e = [] → errorMessage e = Str (str "Submission error")))).
Proof.
  unfold errorMessage.
  pose proof (strict_eq_Str (code e) (str "ECONNABORTED")) as T.
  pose proof (status413_tooLarge e) as L.
  pose proof (includes_substring (str "Network Error") (message e)) as W.
  fold (timedOut e) in T. fold (networkFailure e) in W.
  destruct (strict_eq _ _).
  { split; [reflexivity|]. pose proof (proj1 T eq_refl).
    repeat split; intros; contradiction. }
  assert (¬ timedOut e) as NT by (intros H; apply T in H; discriminate H).
  split; [intros H; contradiction|].
  destruct (status413 e).
  { split; [reflexivity|]. pose proof (proj1 L eq_refl).
    repeat split; intros; contradiction. }
  assert (¬ tooLarge e) as NL by (intros H; apply L in H; discriminate H).
  split; [intros _ H; contradiction|].
  destruct (includes _ _).
  { split; [reflexivity|]. pose proof (proj1 W eq_refl).
    repeat split; intros; contradiction. }
  assert (¬ networkFailure e) as NW
    by (intros H; apply W in H; discriminate H).
  split; [intros _ _ H; contradiction|].
  intros _ _ _. unfold responseError, errorField, or_else, get.
  destruct (response e) as [r|]; [destruct (data r !! "error") as [[|x v]|]|];
    simpl.
  - split; [intros ? [= <-] ?; congruence|]. intros _.
    destruct (message e); split; congruence.
  - split; [intros ? [= <-] _; reflexivity|]. intros [?|?]; discriminate.
  - split; [discriminate|]. intros _.
    destruct (message e); split; congruence.
  - split; [discriminate|]. intros _.
    destruct (message e); split; congruence.
Qed.

Lemma errorMessage_priority_witness :
  errorMessage (badRequest "Invalid age") = Str (str "Invalid age").
Proof.
  destruct (errorMessage_priority (badRequest "Invalid age"))
    as (_ & _ & _ & H).
  apply H.
  - discriminate.
  - intros (r & [= <-] & S). discriminate S.
  - intros W. apply includes_substring in W. discriminate W.
  - reflexivity.
  - discriminate.
Defined.

(** C6 as stated fails: a 400 answer whose body has an [error] field
    that is the empty string is none of the first three cases, the field
    is present, and the message is the error text of axios, not the
    field. *)
Lemma empty_error_field_counterexample :
  let e := badRequest "" in
  ¬ timedOut e ∧ ¬ tooLarge e ∧ ¬ networkFailure e
  ∧ errorField e = Some (str "")
  ∧ errorMessage e = Str (str "Request failed with status code 400")
  ∧ errorMessage e ≠ Str (str "").
Proof.
  repeat split.
  - discriminate.
  - intros (r & [= <-] & S). discriminate S.
  - intros W. apply includes_substring in W. discriminate W.
  - discriminate.
Qed.

End ErrorMessage.

Section Submission.

(** What a fulfilled request does: the message of the body is shown as
    a success, the form is emptied, [isSubmitting] is reset; the timer
    is started exactly when [messageType] was already "success" in the
    render that submitted. *)
Lemma fulfilled_effect (r : Response) (c s : State) :
  let s' := (handleSubmit_settled (Fulfilled r) c s).2 in
  submitMessage s' = get (data r) "message"
  ∧ messageType s' = str "success"
  ∧ formData s' = emptyForm
  ∧ isSubmitting s' = false
  ∧ ((handleSubmit_settled (Fulfilled r) c s).1 = Some 5000%Z
     ↔ messageType c = str "success").
Proof.
  rewrite handleSubmit_settled_run. simpl. repeat split.
  - destruct (str_eqb _ _) eqn:E; [|discriminate].
    intros _. apply str_eqb_eq, E.
  - intros ->. reflexivity.
Qed.

(** C4, on the first successful submission of a session: the success
    message of the server is shown and the form is emptied, but no timer
    was started, and after 5000 ms the message is still there. *)
Theorem first_success_message_stays :
  ∃ w, steps initialWorld firstSubmission = Some w
       ∧ formData (state w) = emptyForm
       ∧ messageType (state w) = str "success"
       ∧ timers w = []
       ∧ submitMessage (state w) = Str (str "Form submitted successfully")
       ∧ truthy (submitMessage (state w)) = true.
Proof. eexists. split; [vm_compute; reflexivity|]. repeat split. Qed.

(** The timer is started when the render that submitted already showed
    a success: after a second accepted submission the message is there
    for 4999 ms and gone after 5000 ms. *)
Example second_success_message_cleared :
  ∃ w, steps initialWorld
         (firstSubmission
          ++ [Change NameInput (str "John Roe"); Change AgeInput (str "58");
              Submit; Settle 0 (ok200 "Form submitted successfully");
              Elapse 4999]) = Some w
       ∧ submitMessage (state w) = Str (str "Form submitted successfully")
       ∧ timers w = [1%Z]
       ∧ ∃ w', step w (Elapse 1) = Some w'
               ∧ submitMessage (state w') = Str (str "")
               ∧ timers w' = [].
Proof.
  eexists. split; [vm_compute; reflexivity|]. repeat split.
  eexists. split; [vm_compute; reflexivity|]. repeat split.
Qed.

(** For the same reason the error message of a submission that fails
    right after an accepted one is cleared after 5000 ms. *)
Example failure_after_success_cleared :
  ∃ w, steps initialWorld
         (firstSubmission
          ++ [Change NameInput (str "John Roe"); Change AgeInput (str "58");
              Submit; Settle 0 (Rejected (badRequest "Invalid age"))])
       = Some w
       ∧ submitMessage (state w) = Str (str "Invalid age")
       ∧ messageType (state w) = str "error"
       ∧ timers w = [5000%Z]
       ∧ ∃ w', step w (Elapse 5000) = Some w'
               ∧ submitMessage (state w') = Str (str "").
Proof.
  eexists. split; [vm_compute; reflexivity|]. repeat split.
  eexists. split; [vm_compute; reflexivity|]. repeat split.
Qed.

(** C9: a submission that fails leaves the form data as it was when
    the form was submitted: [handleSubmit] does not touch it, whether
    validation fails or a request is issued, and neither does the
    settling of the request with any error. *)
Theorem failure_keeps_formData (w w1 : World) :
  step w Submit = Some w1 →
  formData (state w1) = formData (state w)
  ∧ ∀ k e w2, step w1 (Settle k (Rejected e)) = Some w2 →
      formData (state w2) = formData (state w)
      ∧ messageType (state w2) = str "error".
Proof.
  unfold step at 1. destruct (isSubmitting (state w)); [discriminate|].
  unfold run. rewrite handleSubmit_run.
  assert (formData (state w1) = formData (state w) →
          ∀ k e w2, step w1 (Settle k (Rejected e)) = Some w2 →
            formData (state w2) = formData (state w)
            ∧ messageType (state w2) = str "error") as K.
  { intros E k e w2. unfold step.
    destruct (inflight w1 !! k) as [[c q]|]; [|discriminate].
    rewrite (surjective_pairing (handleSubmit_settled _ _ _)).
    rewrite handleSubmit_settled_run. intros [= <-]. simpl.
    split; [exact E | reflexivity]. }
  destruct (noKeys _); intros [= <-]; (split; [reflexivity | apply K; reflexivity]).
Qed.

Lemma failure_keeps_formData_witness :
  formData (state submittedWorld) = formData (state filledWorld)
  ∧ ∀ k e w2, step submittedWorld (Settle k (Rejected e)) = Some w2 →
      formData (state w2) = formData (state filledWorld)
      ∧ messageType (state w2) = str "error".
Proof.
  apply (failure_keeps_formData filledWorld submittedWorld).
  vm_compute. reflexivity.
Defined.

Lemma elapse_isSubmitting (ms : Z) (w : World) :
  isSubmitting (state (elapse ms w)) = isSubmitting (state w).
Proof.
  unfold elapse. simpl.
  generalize (filter (λ t, (t ≤ 0)%Z) (map (λ t, (t - ms)%Z) (timers w))).
  intros due. generalize (state w).
  induction due as [|d due IH]; intros s; simpl; [reflexivity|].
  rewrite IH. reflexivity.
Qed.

Lemma handler_step_inv (h : Handler unit) (w : World) :
  (∀ c s, sameSubmission s (h c s).2) →
  inv w → inv (withState w (run h (state w)).2).
Proof.
  intros H I. unfold inv, withState, run. simpl.
  destruct (H (state w) (state w)) as [-> _]. exact I.
Qed.

Lemma step_inv (w w' : World) (ev : Event) :
  inv w → step w ev = Some w' → inv w'.
Proof.
  intros I.
  destruct ev as [target value| | |first|first| |k r|ms]; unfold step.
  - intros [= <-]. apply (handler_step_inv (handleInputChange target value));
      [|exact I].
    intros c s. apply handleInputChange_same.
  - intros [= <-]. apply (handler_step_inv handleDragOver); [|exact I].
    intros c s. apply setIsDragging_same.
  - intros [= <-]. apply (handler_step_inv handleDragLeave); [|exact I].
    intros c s. apply setIsDragging_same.
  - intros [= <-]. apply (handler_step_inv (handleDrop first)); [|exact I].
    intros c s. apply handleDrop_same.
  - intros [= <-]. apply (handler_step_inv (handleFileChange first));
      [|exact I].
    intros c s. apply handleFileChange_same.
  - unfold inv in I. destruct (isSubmitting (state w)) eqn:B; [discriminate|].
    unfold run. rewrite handleSubmit_run.
    destruct (noKeys _); intros [= <-]; unfold inv; simpl;
      rewrite length_app, I, ?B; reflexivity.
  - destruct (inflight w !! k) as [[c q]|] eqn:K; [|discriminate].
    rewrite (surjective_pairing (handleSubmit_settled _ _ _)).
    rewrite handleSubmit_settled_run. intros [= <-]. unfold inv in *.
    apply lookup_lt_Some in K.
    destruct (isSubmitting (state w)); [|lia].
    assert (length (delete k (inflight w)) = 0) as E.
    { rewrite length_delete by (apply lookup_lt_is_Some; lia). lia. }
    cbn [inflight state]. rewrite E. destruct r; reflexivity.
  - destruct (ms <? 0)%Z; [discriminate|]. intros [= <-].
    unfold inv. rewrite elapse_isSubmitting. exact I.
Qed.

Lemma steps_inv (evs : list Event) (w w' : World) :
  inv w → steps w evs = Some w' → inv w'.
Proof.
  revert w. induction evs as [|ev evs IH]; intros w I; simpl.
  - intros [= <-]. exact I.
  - destruct (step w ev) as [w1|] eqn:S; [|discriminate].
    apply IH. exact (step_inv w w1 ev I S).
Qed.

End Submission.

Section SubmittingFlag.

(** C8: in every state the page can reach, [isSubmitting] is true
    exactly while one request is in flight. Submitting the form sets it
    to true exactly when [validateForm] succeeds, together with the
    issue of the request (otherwise it stays false and nothing is
    issued); the settling of the request, whatever its outcome, sets it
    back to false and leaves no request in flight. *)
Theorem submitting_while_in_flight (evs : list Event) (w : World) :
  steps initialWorld evs = Some w →
  length (inflight w) = (if isSubmitting (state w) then 1 else 0)
  ∧ (∀ w', step w Submit = Some w' →
       (isSubmitting (state w') = true
        ↔ (run validateForm (state w)).1 = true)
       ∧ (isSubmitting (state w') = true →
          ∃ q, inflight w' = [(state w, q)])
       ∧ (isSubmitting (state w') = false → inflight w' = []))
  ∧ (∀ k r w', step w (Settle k r) = Some w' →
       isSubmitting (state w') = false ∧ inflight w' = []).
Proof.
  intros R.
  assert (inv w) as I by (apply (steps_inv evs initialWorld); easy).
  split; [exact I|]. split.
  - intros w'. unfold step. unfold inv in I.
    destruct (isSubmitting (state w)) eqn:B; [discriminate|].
    apply nil_length_inv in I.
    unfold run. rewrite handleSubmit_run, validateForm_run, I. cbn [fst].
    destruct (noKeys _); intros [= <-]; simpl; rewrite ?B.
    + split; [reflexivity|]. split; [|discriminate].
      intros _. eexists. reflexivity.
    + split; [reflexivity|]. split; [discriminate | reflexivity].
  - intros k r w' S. pose proof (step_inv w w' _ I S) as I'.
    revert S. unfold step.
    destruct (inflight w !! k) as [[c q]|]; [|discriminate].
    rewrite (surjective_pairing (handleSubmit_settled _ _ _)).
    rewrite handleSubmit_settled_run. intros [= <-].
    unfold inv in I'. revert I'. cbn [inflight state].
    destruct r; cbn [isSubmitting]; intros I';
      (split; [reflexivity | apply nil_length_inv, I']).
Qed.

Lemma submitting_while_in_flight_witness :
  length (inflight submittedWorld)
  = (if isSubmitting (state submittedWorld) then 1 else 0)
  ∧ (∀ w', step submittedWorld Submit = Some w' →
       (isSubmitting (state w') = true
        ↔ (run validateForm (state submittedWorld)).1 = true)
       ∧ (isSubmitting (state w') = true →
          ∃ q, inflight w' = [(state submittedWorld, q)])
       ∧ (isSubmitting (state w') = false → inflight w' = []))
  ∧ (∀ k r w', step submittedWorld (Settle k r) = Some w' →
       isSubmitting (state w') = false ∧ inflight w' = []).
Proof.
  apply (submitting_while_in_flight
           [Change NameInput (str "Jane Doe"); Change AgeInput (str "34");
            Submit]).
  vm_compute. reflexivity.
Defined.

End SubmittingFlag.

(** * Further properties of the component *)

Section TrimFacts.

Lemma trimStart_nil (s : jsstring) : trimStart s = [] ↔ blank s.
Proof.
  unfold blank. induction s as [|c s IH]; simpl.
  - split; [intros _ c Hc; inversion Hc | reflexivity].
  - destruct (isWhiteSpace c) eqn:W.
    + rewrite IH. split.
      * intros H x Hx. inversion Hx; subst; [exact W | apply H; assumption].
      * intros H x Hx. apply H. constructor. exact Hx.
    + split; [discriminate|]. intros H.
      rewrite (H c) in W by constructor. discriminate W.
Qed.

Lemma trimStart_head (s r : jsstring) (c : N) :
  trimStart s = c :: r → isWhiteSpace c = false ∧ c ∈ s.
Proof.
  induction s as [|x s IH]; simpl; [discriminate|].
  destruct (isWhiteSpace x) eqn:W.
  - intros H. destruct (IH H) as [E I]. split; [exact E|].
    constructor. exact I.
  - intros [= -> ->]. split; [exact W | constructor].
Qed.

(** [trim] leaves nothing exactly of the strings of white space. *)
Lemma trim_nil (s : jsstring) : trim s = [] ↔ blank s.
Proof.
  unfold trim, trimEnd. split.
  - intros H. apply trimStart_nil.
    destruct (trimStart s) as [|c r] eqn:T; [reflexivity|].
    apply (f_equal (@rev N)) in H. rewrite rev_involutive in H. simpl in H.
    apply trimStart_nil in H. apply trimStart_head in T as [W _].
    rewrite (H c) in W; [discriminate W|].
    apply list_elem_of_In, in_or_app. right. left. reflexivity.
  - intros H. apply trimStart_nil in H. rewrite H. reflexivity.
Qed.

Lemma isLetter_not_space (c : N) : isLetter c = true → isWhiteSpace c = false.
Proof.
  unfold isLetter, isWhiteSpace.
  rewrite orb_true_iff, !andb_true_iff, !N.leb_le. intros H.
  repeat (apply orb_false_iff; split);
    rewrite ?andb_false_iff, ?N.leb_gt, ?N.eqb_neq; lia.
Qed.

End TrimFacts.

Section ValidationMore.

Lemma decide_name_rule (n : jsstring) : nameRuleFails n ∨ ¬ nameRuleFails n.
Proof.
  unfold nameRuleFails. rewrite <- lettersAndSpaces_exists.
  destruct (trim n) as [|c t]; [left; left; reflexivity|].
  destruct (Z.ltb_spec (strlen n) 2) as [L|L]; [left; right; left; exact L|].
  destruct (lettersAndSpaces n); [|left; right; right; reflexivity].
  right. intros [H|[H|H]]; [discriminate H | lia | discriminate H].
Qed.

(** X1: validating twice in a row gives the same answer and the same
    state as validating once. *)
Theorem validateForm_idempotent (s : State) :
  run validateForm (run validateForm s).2 = run validateForm s.
Proof. unfold run. rewrite !validateForm_run. reflexivity. Qed.

(** X2: after [validateForm] the [errors] object has no key besides
    "name" and "age": an entry left under "file" by a refused file is
    gone; the form data and the other state variables are untouched. *)
Theorem validateForm_keys (s : State) :
  let s' := (run validateForm s).2 in
  dom (errors s') ⊆ ({["name"; "age"]} : gset string)
  ∧ errors s' !! "file" = None
  ∧ formData s' = formData s
  ∧ isDragging s' = isDragging s
  ∧ sameSubmission s s'.
Proof.
  unfold run. rewrite validateForm_run. simpl. split.
  - intros k Hk. apply elem_of_dom in Hk.
    destruct (decide (k = "name")) as [->|Hn]; [set_solver|].
    destruct (decide (k = "age")) as [->|Ha]; [set_solver|].
    rewrite newErrors_other in Hk by assumption. destruct Hk as [? [=]].
  - split; [apply newErrors_other; discriminate|]. repeat split.
Qed.

(** X3: the two fields are judged separately: a name error is recorded
    exactly when a name rule fails and an age error exactly when an age
    rule fails, so that neither hides the other. *)
Theorem validateForm_fields_independent (s : State) :
  let e := errors (run validateForm s).2 in
  (is_Some (e !! "name") ↔ nameRuleFails (name (formData s)))
  ∧ (is_Some (e !! "age") ↔ ageRuleFails (age (formData s))).
Proof.
  unfold run. rewrite validateForm_run. simpl.
  rewrite newErrors_name, newErrors_age.
  pose proof (nameError_None (name (formData s))) as N.
  pose proof (ageError_None (age (formData s))) as A.
  split.
  - destruct (nameError _) as [m|].
    + split; [intros _ | eexists; reflexivity].
      destruct (decide_name_rule (name (formData s))) as [F|F]; [exact F|].
      apply N in F. discriminate F.
    + split; [intros [? [=]] | intros F]. destruct (proj1 N eq_refl F).
  - destruct (ageError _) as [m|].
    + split; [intros _ | eexists; reflexivity].
      unfold ageRuleFails.
      destruct (age (formData s)) as [|d a]; [left; reflexivity|]. right.
      destruct (outsideRange_dec (ToNumber (d :: a))) as [O|O]; [exact O|].
      exfalso. assert (Some m = None) as [=]. apply A. intros [[=]|O'].
      contradiction.
    + split; [intros [? [=]] | intros F]. destruct (proj1 A eq_refl F).
Qed.

(** X4: "Name is required" is the message exactly of the names made of
    white space only, the empty name among them. *)
Theorem name_required_iff_blank (s : State) :
  errors (run validateForm s).2 !! "name" = Some (str "Name is required")
  ↔ blank (name (formData s)).
Proof.
  unfold run. rewrite validateForm_run. simpl.
  rewrite newErrors_name, <- trim_nil. unfold nameError.
  destruct (trim (name (formData s))) as [|c t].
  - split; reflexivity.
  - destruct (_ <? _)%Z; [|destruct (lettersAndSpaces _)];
      split; discriminate.
Qed.

(** X5: a name gets no error exactly when it has at least two code
    units, each of them a letter a-z, A-Z or white space, and at least
    one of them a letter. *)
Theorem name_accepted_iff (s : State) :
  let n := name (formData s) in
  errors (run validateForm s).2 !! "name" = None
  ↔ (2 ≤ strlen n)%Z
    ∧ (∀ c, c ∈ n → isLetter c = true ∨ isWhiteSpace c = true)
    ∧ (∃ c, c ∈ n ∧ isLetter c = true).
Proof.
  intros n. unfold run. rewrite validateForm_run. simpl.
  rewrite newErrors_name. fold n. rewrite nameError_None.
  unfold nameRuleFails. rewrite trim_nil, <- trimStart_nil. split.
  - intros F.
    assert (∀ c, c ∈ n → isLetter c = true ∨ isWhiteSpace c = true) as A.
    { intros c Hc. destruct (isLetter c) eqn:L; [left; reflexivity|].
      destruct (isWhiteSpace c) eqn:W; [right; reflexivity|].
      destruct F. right. right. exists c. repeat split; assumption. }
    split; [lia|]. split; [exact A|].
    destruct (trimStart n) as [|c r] eqn:T; [destruct F; left; reflexivity|].
    apply trimStart_head in T as [W I]. exists c. split; [exact I|].
    destruct (A c I) as [L|W']; [exact L | congruence].
  - intros (L & A & c & I & Lc) [B|[S|(x & Ix & Lx & Wx)]].
    + apply trimStart_nil in B. apply isLetter_not_space in Lc.
      rewrite (B c I) in Lc. discriminate Lc.
    + lia.
    + destruct (A x Ix); congruence.
Qed.

End ValidationMore.

Section InputMore.

Lemma get_insert_eq (o : gmap string jsstring) (k : string) (v : jsstring) :
  get (<[k := v]> o) k = Str v.
Proof. unfold get. rewrite lookup_insert_eq. reflexivity. Qed.

Lemma get_insert_ne (o : gmap string jsstring) (k k' : string)
    (v : jsstring) :
  k ≠ k' → get (<[k := v]> o) k' = get o k'.
Proof. intros H. unfold get. rewrite lookup_insert_ne by exact H. reflexivity. Qed.

Lemma shown_None (v : jsval) : shown v = None ↔ truthy v = false.
Proof. destruct v as [|[|c s]]; simpl; split; congruence. Qed.

(** What the edited key of [errors] holds after [handleInputChange] run
    in the current render: nothing that is shown. *)
Lemma handleInputChange_hides (target : TextInput) (value : jsstring)
    (s : State) :
  truthy (get (errors (run (handleInputChange target value) s).2)
            (inputName target)) = false.
Proof.
  unfold run. rewrite handleInputChange_run. simpl.
  destruct (truthy (get (errors s) (inputName target))) eqn:T.
  - rewrite get_insert_eq. reflexivity.
  - exact T.
Qed.

Lemma handleInputChange_others (target : TextInput) (value : jsstring)
    (c s : State) (k : string) :
  k ≠ inputName target →
  get (errors (handleInputChange target value c s).2) k = get (errors s) k.
Proof.
  intros H. rewrite handleInputChange_run. simpl.
  destruct (truthy _); [|reflexivity].
  apply get_insert_ne. congruence.
Qed.

(** X6: typing in the name input shows the typed text there, leaves
    that input without red border and without error paragraph, and
    changes nothing else on the page; likewise for the age input. *)
Theorem typing_on_the_page (s : State) (value : jsstring) :
  let p := render s in
  let pn := render (run (handleInputChange NameInput value) s).2 in
  let pa := render (run (handleInputChange AgeInput value) s).2 in
  pn = {| nameValue := value; nameBorder := BorderGray;
          nameErrorText := None;
          ageValue := ageValue p; ageBorder := ageBorder p;
          ageErrorText := ageErrorText p; dropZone := dropZone p;
          selectedFile := selectedFile p; fileErrorText := fileErrorText p;
          buttonDisabled := buttonDisabled p;
          buttonSubmitting := buttonSubmitting p; banner := banner p |}
  ∧ pa = {| nameValue := nameValue p; nameBorder := nameBorder p;
            nameErrorText := nameErrorText p;
            ageValue := value; ageBorder := BorderGray;
            ageErrorText := None; dropZone := dropZone p;
            selectedFile := selectedFile p; fileErrorText := fileErrorText p;
            buttonDisabled := buttonDisabled p;
            buttonSubmitting := buttonSubmitting p; banner := banner p |}.
Proof.
  unfold run. rewrite !handleInputChange_run. unfold render, borderOf.
  cbn [formData errors isSubmitting submitMessage messageType isDragging
       withField name age file inputName].
  split.
  - destruct (truthy (get (errors s) "name")) eqn:T.
    + rewrite get_insert_eq, !get_insert_ne by discriminate. reflexivity.
    + rewrite (proj2 (shown_None _) T), T. reflexivity.
  - destruct (truthy (get (errors s) "age")) eqn:T.
    + rewrite get_insert_eq, !get_insert_ne by discriminate. reflexivity.
    + rewrite (proj2 (shown_None _) T), T. reflexivity.
Qed.

(** X7: typing twice in the same input leaves the state that typing
    the second text alone leaves. *)
Theorem typing_last_wins (s : State) (target : TextInput) (v1 v2 : jsstring) :
  (run (handleInputChange target v2)
     (run (handleInputChange target v1) s).2).2
  = (run (handleInputChange target v2) s).2.
Proof.
  pose proof (handleInputChange_hides target v1 s) as H.
  unfold run in *. rewrite (handleInputChange_run target v2).
  rewrite H. rewrite !handleInputChange_run. simpl.
  destruct (truthy (get (errors s) (inputName target)));
    destruct target; reflexivity.
Qed.

(** X8: typing a name and typing an age commute. *)
Theorem typing_commutes (s : State) (n a : jsstring) :
  (run (handleInputChange AgeInput a)
     (run (handleInputChange NameInput n) s).2).2
  = (run (handleInputChange NameInput n)
       (run (handleInputChange AgeInput a) s).2).2.
Proof.
  pose proof (handleInputChange_others NameInput n s s "age") as A.
  pose proof (handleInputChange_others AgeInput a s s "name") as N.
  unfold run in *.
  rewrite (handleInputChange_run AgeInput a), (handleInputChange_run NameInput n _ (handleInputChange AgeInput a s s).2).
  simpl inputName in *. rewrite A, N by discriminate.
  rewrite !handleInputChange_run. simpl.
  destruct (truthy (get (errors s) "name")), (truthy (get (errors s) "age"));
    try reflexivity.
  f_equal. apply insert_insert_ne. discriminate.
Qed.

End InputMore.

Section FileMore.

Lemma validFile_tests (f : File) :
  validFile f
  ↔ negb (existsb (str_eqb (file_type f)) allowedTypes) = false
    ∧ (maxSize <? file_size f)%Z = false.
Proof.
  unfold validFile. rewrite allowed_test, Z.ltb_ge. reflexivity.
Qed.

Lemma validFile_dec (f : File) : validFile f ∨ ¬ validFile f.
Proof.
  rewrite validFile_tests.
  destruct (negb _); [right; intros [[=] _]|].
  destruct (_ <? _)%Z; [right; intros [_ [=]] | left; split; reflexivity].
Qed.

(** X9: [handleFileSelection] stores the candidate and blanks the file
    error when the candidate is valid, and otherwise keeps the form data
    and sets a file error that is shown; in both cases the name, the
    age, the other keys of [errors] and [isDragging] stay as they were. *)
Theorem handleFileSelection_effect (c s : State) (f : File) :
  let s' := (handleFileSelection f c s).2 in
  (validFile f →
   file (formData s') = Some f ∧ errors s' !! "file" = Some (str ""))
  ∧ (¬ validFile f →
     formData s' = formData s ∧ truthy (get (errors s') "file") = true)
  ∧ name (formData s') = name (formData s)
  ∧ age (formData s') = age (formData s)
  ∧ (∀ k, k ≠ "file" → errors s' !! k = errors s !! k)
  ∧ isDragging s' = isDragging s.
Proof.
  rewrite handleFileSelection_run.
  pose proof (validFile_tests f) as V.
  destruct (negb _).
  - simpl. split; [intros H; apply V in H as [[=] _]|].
    split; [intros _; split; [reflexivity|]; rewrite get_insert_eq; reflexivity|].
    repeat split. intros k Hk. apply lookup_insert_ne. congruence.
  - destruct (_ <? _)%Z; simpl.
    + split; [intros H; apply V in H as [_ [=]]|].
      split; [intros _; split; [reflexivity|]; rewrite get_insert_eq; reflexivity|].
      repeat split. intros k Hk. apply lookup_insert_ne. congruence.
    + split; [intros _; split; [reflexivity | apply lookup_insert_eq]|].
      split; [intros H; destruct H; apply V; split; reflexivity|].
      repeat split. intros k Hk. apply lookup_insert_ne. congruence.
Qed.

Lemma handleFileSelection_effect_witness :
  file (formData (handleFileSelection
                    {| file_name := str "scan.png";
                       file_type := str "image/png";
                       file_size := 5242880 |} initialState initialState).2)
  = Some {| file_name := str "scan.png"; file_type := str "image/png";
            file_size := 5242880 |}
  ∧ errors (handleFileSelection
              {| file_name := str "scan.png"; file_type := str "image/png";
                 file_size := 5242880 |} initialState initialState).2
      !! "file" = Some (str "").
Proof.
  apply (proj1 (handleFileSelection_effect initialState initialState
                  {| file_name := str "scan.png";
                     file_type := str "image/png";
                     file_size := 5242880 |})).
  split.
  - apply existsb_str_eqb. reflexivity.
  - discriminate.
Defined.

(** X10: after a file selection the file error paragraph is shown
    exactly when the candidate was not valid. *)
Theorem file_error_shown_iff_invalid (c s : State) (f : File) :
  fileErrorText (render (handleFileSelection f c s).2) = None ↔ validFile f.
Proof.
  unfold render. cbn [fileErrorText]. rewrite shown_None.
  destruct (handleFileSelection_effect c s f) as (A & B & _).
  destruct (validFile_dec f) as [V|V].
  - destruct (A V) as [_ E]. unfold get. rewrite E. easy.
  - destruct (B V) as [_ E]. rewrite E. split; [discriminate | contradiction].
Qed.

(** X11: a drop without a file (no first entry in the dropped list)
    only ends the dragging; a drop with a file is the end of the
    dragging followed by the selection of that file. Once the drop is
    handled the drop zone is no longer blue. *)
Theorem handleDrop_effect (c s : State) (first : option File) :
  let s' := (handleDrop first c s).2 in
  isDragging s' = false
  ∧ dropZone (render s') ≠ ZoneBlue
  ∧ match first with
    | None =>
        formData s' = formData s ∧ errors s' = errors s
        ∧ sameSubmission s s'
    | Some f =>
        s' = (handleFileChange (Some f) c (handleDragLeave c s).2).2
    end.
Proof.
  destruct first as [f|]; cbn zeta.
  - change (handleDrop (Some f) c s)
      with (handleFileSelection f c (setIsDragging false c s).2).
    destruct (handleFileSelection_effect c (setIsDragging false c s).2 f)
      as (_ & _ & _ & _ & _ & D).
    unfold render. cbn [dropZone]. rewrite D. simpl.
    split; [reflexivity|]. split; [|reflexivity].
    destruct (truthy _); discriminate.
  - simpl. split; [reflexivity|]. split; [|repeat split].
    destruct (truthy _); discriminate.
Qed.

End FileMore.

Section OutcomeMore.

Lemma errorMessage_truthy (e : AxiosError) : truthy (errorMessage e) = true.
Proof.
  unfold errorMessage, or_else.
  destruct (strict_eq _ _); [reflexivity|].
  destruct (status413 e); [reflexivity|].
  destruct (includes _ _); [reflexivity|].
  destruct (truthy (responseError e)) eqn:R; [exact R|].
  destruct (message e); reflexivity.
Qed.

Lemma shown_truthy (v : jsval) :
  truthy v = true → ∃ m, v = Str m ∧ shown v = Some m.
Proof.
  destruct v as [|[|c s]]; simpl; try discriminate.
  intros _. eexists. split; reflexivity.
Qed.

(** X12: whatever error the request is rejected with, a message that is
    not empty is shown, in red with the alert icon, and the button is
    enabled again. *)
Theorem rejected_banner (e : AxiosError) (c s : State) :
  let p := render (handleSubmit_settled (Rejected e) c s).2 in
  (∃ m, m ≠ [] ∧ errorMessage e = Str m
        ∧ banner p = Some (TextRed, AlertCircle, m))
  ∧ buttonDisabled p = false.
Proof.
  rewrite handleSubmit_settled_run. unfold render. simpl.
  destruct (shown_truthy _ (errorMessage_truthy e)) as (m & E & S).
  split; [|reflexivity]. exists m. rewrite S. split; [|split; [exact E|reflexivity]].
  intros ->. rewrite E in S. discriminate S.
Qed.

(** X13: when the request is fulfilled, the page shows empty inputs and
    no selected file, the button is enabled again, and the [message]
    field of the body is shown in green with the check icon; a body
    without a [message] field, or with an empty one, shows no banner. *)
Theorem fulfilled_banner (r : Response) (c s : State) :
  let p := render (handleSubmit_settled (Fulfilled r) c s).2 in
  nameValue p = [] ∧ ageValue p = [] ∧ selectedFile p = None
  ∧ buttonDisabled p = false
  ∧ banner p = match data r !! "message" with
               | Some (x :: m) => Some (TextGreen, CheckCircle2, x :: m)
               | _ => None
               end.
Proof.
  rewrite handleSubmit_settled_run. unfold render, get. simpl.
  repeat split. destruct (data r !! "message") as [[|x m]|]; reflexivity.
Qed.

(** X14: what [handleSubmit] leaves on the page before the request
    settles. Either it issues the request built from the form, and then
    no field error and no banner is left and the button is disabled; or
    it issues none, and then an error paragraph is shown under the name
    or under the age input, the banner is the red "Please fix the errors
    before submitting." and the button is as it was. The form data is the
    same in both cases. *)
Theorem handleSubmit_page (s : State) :
  let s' := (run handleSubmit s).2 in
  let p := render s' in
  formData s' = formData s
  ∧ match (run handleSubmit s).1 with
    | Some q =>
        q = requestFor (formData s) ∧ errors s' = ∅
        ∧ banner p = None ∧ buttonDisabled p = true
    | None =>
        (nameErrorText p ≠ None ∨ ageErrorText p ≠ None)
        ∧ banner p
          = Some (TextRed, AlertCircle,
                  str "Please fix the errors before submitting.")
        ∧ buttonDisabled p = buttonDisabled (render s)
    end.
Proof.
  unfold run. rewrite handleSubmit_run.
  destruct (noKeys _) eqn:K; cbn [fst snd].
  - apply noKeys_empty in K. rewrite K. repeat split.
  - split; [reflexivity|]. split; [|split; reflexivity].
    unfold render, get. cbn [nameErrorText ageErrorText errors].
    rewrite newErrors_name, newErrors_age.
    destruct (nameError (name (formData s))) as [m|] eqn:N.
    { left. unfold nameError in N.
      destruct (trim _); [|destruct (_ <? _)%Z; [|destruct (lettersAndSpaces _)]];
        injection N as <- || discriminate N; discriminate. }
    destruct (ageError (age (formData s))) as [m|] eqn:A.
    { right. unfold ageError in A.
      destruct (age (formData s)); [|destruct (_ || _)];
        injection A as <- || discriminate A; discriminate. }
    exfalso. assert (noKeys (newErrors (formData s)) = true) as E.
    { apply noKeys_empty, newErrors_empty. split; assumption. }
    congruence.
Qed.

Lemma readPayload_payload (fd : FormData) :
  readPayload (payload fd) = Some fd.
Proof. destruct fd as [n a [f|]]; reflexivity. Qed.

(** X15: the payload of a request determines the form it was built
    from: two forms with the same payload have the same name, the same
    age and the same file (or both none). *)
Theorem payload_injective (fd1 fd2 : FormData) :
  payload fd1 = payload fd2 → fd1 = fd2.
Proof.
  intros E. apply (f_equal readPayload) in E.
  rewrite !readPayload_payload in E. congruence.
Qed.

Lemma payload_injective_witness :
  formData (filled "Jane Doe" "34")
  = {| name := str "Jane Doe"; age := str "34"; file := None |}.
Proof. apply payload_injective. reflexivity. Defined.

End OutcomeMore.

Section Reachable.

Lemma steps_preserve (P : World → Prop) :
  (∀ w ev w', P w → step w ev = Some w' → P w') →
  ∀ evs w w', P w → steps w evs = Some w' → P w'.
Proof.
  intros H evs. induction evs as [|ev evs IH]; intros w w' Pw; simpl.
  - intros [= <-]. exact Pw.
  - destruct (step w ev) as [w1|] eqn:S; [|discriminate].
    apply IH. exact (H w ev w1 Pw S).
Qed.

Lemma clearMessage_fold (due : list Z) (s : State) :
  fold_left (λ s0 _, (run clearMessage s0).2) due (run clearMessage s).2
  = (run clearMessage s).2.
Proof.
  induction due as [|d due IH]; simpl; [reflexivity|]. exact IH.
Qed.

(** Due timers only blank the message. *)
Lemma elapse_state (ms : Z) (w : World) :
  state (elapse ms w) = state w
  ∨ state (elapse ms w) = (run clearMessage (state w)).2.
Proof.
  unfold elapse. cbn [state].
  destruct (filter _ _) as [|d due]; [left; reflexivity|]. right.
  apply clearMessage_fold.
Qed.

Lemma handleFileSelection_valid (f : File) (c s : State) :
  (∀ g, file (formData s) = Some g → validFile g) →
  ∀ g, file (formData (handleFileSelection f c s).2) = Some g → validFile g.
Proof.
  intros H g. destruct (handleFileSelection_effect c s f) as (A & B & _).
  destruct (validFile_dec f) as [V|V].
  - destruct (A V) as [-> _]. intros [= <-]. exact V.
  - destruct (B V) as [-> _]. apply H.
Qed.

Lemma goodForm_passes (fd : FormData) :
  noKeys (newErrors fd) = true →
  (∀ f, file fd = Some f → validFile f) → goodForm fd.
Proof.
  intros K F. apply noKeys_empty, newErrors_empty in K as [N A].
  split; [apply nameError_None, N|]. split; [apply ageError_None, A | exact F].
Qed.

Lemma step_sound (w w' : World) (ev : Event) :
  sound w → step w ev = Some w' → sound w'.
Proof.
  intros [F R].
  destruct ev as [target value| | |first|first| |k r|ms]; unfold step.
  - intros [= <-]. split; [|exact R]. unfold withState, run. cbn [state].
    rewrite handleInputChange_run. destruct target; exact F.
  - intros [= <-]. split; [exact F | exact R].
  - intros [= <-]. split; [exact F | exact R].
  - intros [= <-]. split; [|exact R]. destruct first as [f|]; [|exact F].
    apply (handleFileSelection_valid f (state w) (setIsDragging false (state w) (state w)).2).
    exact F.
  - intros [= <-]. split; [|exact R]. destruct first as [f|]; [|exact F].
    apply (handleFileSelection_valid f (state w) (state w)). exact F.
  - destruct (isSubmitting (state w)); [discriminate|].
    unfold run. rewrite handleSubmit_run.
    destruct (noKeys _) eqn:K; intros [= <-]; (split; [exact F|]); cbn [inflight].
    + apply Forall_app. split; [exact R|]. apply Forall_singleton.
      split; [reflexivity | apply goodForm_passes; assumption].
    + rewrite app_nil_r. exact R.
  - destruct (inflight w !! k) as [[c q]|]; [|discriminate].
    rewrite (surjective_pairing (handleSubmit_settled _ _ _)).
    rewrite handleSubmit_settled_run. intros [= <-]. split.
    + destruct r; [intros f [=] | exact F].
    + cbn [inflight]. apply Forall_delete, R.
  - destruct (ms <? 0)%Z; [discriminate|]. intros [= <-].
    split; [|exact R].
    destruct (elapse_state ms w) as [-> | ->]; exact F.
Qed.

Lemma reachable_sound (evs : list Event) (w : World) :
  steps initialWorld evs = Some w → sound w.
Proof.
  apply (steps_preserve sound).
  - intros w0 ev w1. apply step_sound.
  - split; [intros f [=] | constructor].
Qed.

(** X16: in every state the page can reach, the stored file, if there
    is one, is of an allowed type and of at most 5242880 bytes. *)
Theorem stored_file_valid (evs : list Event) (w : World) (f : File) :
  steps initialWorld evs = Some w →
  file (formData (state w)) = Some f →
  file_type f ∈ [str "application/pdf"; str "image/jpeg"; str "image/png"]
  ∧ (file_size f ≤ 5242880)%Z.
Proof.
  intros R. destruct (reachable_sound evs w R) as [F _]. exact (F f).
Qed.

(** X17: every request in flight was built from a form that passed
    validation: its payload reads back as a name and an age for which no
    rule fails and a file, if any, of an allowed type and size; it goes
    to the form endpoint with the 15000 ms timeout. *)
Theorem requests_carry_valid_forms (evs : list Event) (w : World)
    (c : State) (q : Request) :
  steps initialWorld evs = Some w →
  (c, q) ∈ inflight w →
  url q = str "http://localhost:5000/api/form"
  ∧ timeout q = 15000%Z
  ∧ ∃ fd, readPayload (submitData q) = Some fd
          ∧ ¬ nameRuleFails (name fd) ∧ ¬ ageRuleFails (age fd)
          ∧ ∀ f, file fd = Some f → validFile f.
Proof.
  intros R I. destruct (reachable_sound evs w R) as [_ A].
  rewrite Forall_forall in A. destruct (A _ I) as [E G].
  cbn [fst snd] in E, G. subst q.
  split; [reflexivity|]. split; [reflexivity|].
  exists (formData c). split; [apply readPayload_payload | exact G].
Qed.

Lemma stored_file_valid_witness :
  file_type smallScan
    ∈ [str "application/pdf"; str "image/jpeg"; str "image/png"]
  ∧ (file_size smallScan ≤ 5242880)%Z.
Proof.
  apply (stored_file_valid [Drop (Some smallScan)] droppedWorld smallScan);
    vm_compute; reflexivity.
Defined.

Lemma requests_carry_valid_forms_witness :
  url (requestFor (formData (state filledWorld)))
  = str "http://localhost:5000/api/form"
  ∧ timeout (requestFor (formData (state filledWorld))) = 15000%Z
  ∧ ∃ fd, readPayload (submitData (requestFor (formData (state filledWorld))))
          = Some fd
          ∧ ¬ nameRuleFails (name fd) ∧ ¬ ageRuleFails (age fd)
          ∧ ∀ f, file fd = Some f → validFile f.
Proof.
  apply (requests_carry_valid_forms
           [Change NameInput (str "Jane Doe"); Change AgeInput (str "34");
            Submit]
           submittedWorld (state filledWorld)).
  - vm_compute. reflexivity.
  - apply list_elem_of_In. vm_compute. left. reflexivity.
Defined.

Lemma coherent_same (s s' : State) :
  sameSubmission s s' → coherent s → coherent s'.
Proof.
  intros (E1 & E2 & E3). unfold coherent. rewrite E1, E2, E3. trivial.
Qed.

Lemma coherent_cleared (s : State) :
  coherent s → coherent (run clearMessage s).2.
Proof.
  intros (_ & _ & T). split; [reflexivity|]. split; [discriminate | exact T].
Qed.

Lemma step_coherent (w w' : World) (ev : Event) :
  coherent (state w) → step w ev = Some w' → coherent (state w').
Proof.
  intros C.
  destruct ev as [target value| | |first|first| |k r|ms]; unfold step.
  - intros [= <-]. apply (coherent_same (state w)); [|exact C].
    apply (handleInputChange_same target value (state w) (state w)).
  - intros [= <-]. apply (coherent_same (state w)); [|exact C].
    apply (setIsDragging_same true (state w) (state w)).
  - intros [= <-]. apply (coherent_same (state w)); [|exact C].
    apply (setIsDragging_same false (state w) (state w)).
  - intros [= <-]. apply (coherent_same (state w)); [|exact C].
    apply (handleDrop_same first (state w) (state w)).
  - intros [= <-]. apply (coherent_same (state w)); [|exact C].
    apply (handleFileChange_same first (state w) (state w)).
  - destruct (isSubmitting (state w)) eqn:B; [discriminate|].
    unfold run. rewrite handleSubmit_run. destruct C as (_ & _ & T).
    destruct (noKeys _); intros [= <-]; cbn [state]; unfold coherent;
      cbn [isSubmitting submitMessage messageType].
    + split; [reflexivity|]. split; [discriminate | exact T].
    + split; [rewrite B; discriminate|]. split; [left|right; left]; reflexivity.
  - destruct (inflight w !! k) as [[c q]|]; [|discriminate].
    rewrite (surjective_pairing (handleSubmit_settled _ _ _)).
    rewrite handleSubmit_settled_run. intros [= <-].
    destruct r; unfold coherent; simpl; (split; [discriminate|]).
    + split; right; [|right]; reflexivity.
    + split; [left | right; left]; reflexivity.
  - destruct (ms <? 0)%Z; [discriminate|]. intros [= <-].
    destruct (elapse_state ms w) as [-> | ->];
      [exact C | apply coherent_cleared, C].
Qed.

Lemma reachable_coherent (evs : list Event) (w : World) :
  steps initialWorld evs = Some w → coherent (state w).
Proof.
  apply (steps_preserve (λ w0, coherent (state w0))).
  - intros w0 ev w1. apply step_coherent.
  - split; [discriminate|]. split; [discriminate | left; reflexivity].
Qed.

(** X18: in every state the page can reach, no banner is shown while
    the submit button is disabled, and a banner that is shown is either
    red with the alert icon, [messageType] being "error", or green with
    the check icon, [messageType] being "success". *)
Theorem banner_coherent (evs : list Event) (w : World) :
  steps initialWorld evs = Some w →
  let p := render (state w) in
  (buttonDisabled p = true → banner p = None)
  ∧ ∀ tone icon m, banner p = Some (tone, icon, m) →
      (tone = TextRed ∧ icon = AlertCircle
       ∧ messageType (state w) = str "error")
      ∨ (tone = TextGreen ∧ icon = CheckCircle2
         ∧ messageType (state w) = str "success").
Proof.
  intros R. destruct (reachable_coherent evs w R) as (B & T & _).
  unfold render. cbn [buttonDisabled banner]. split.
  - intros D. rewrite (B D). reflexivity.
  - intros tone icon m.
    destruct (submitMessage (state w)) as [|[|x v]]; try discriminate.
    destruct (T eq_refl) as [-> | ->]; cbn [shown]; intros [= <- <- <-];
      [left | right]; repeat split.
Qed.

Lemma banner_coherent_witness :
  let p := render (state submittedWorld) in
  (buttonDisabled p = true → banner p = None)
  ∧ ∀ tone icon m, banner p = Some (tone, icon, m) →
      (tone = TextRed ∧ icon = AlertCircle
       ∧ messageType (state submittedWorld) = str "error")
      ∨ (tone = TextGreen ∧ icon = CheckCircle2
         ∧ messageType (state submittedWorld) = str "success").
Proof.
  apply (banner_coherent
           [Change NameInput (str "Jane Doe"); Change AgeInput (str "34");
            Submit]).
  vm_compute. reflexivity.
Defined.

End Reachable.

Section WholeNumbers.
Local Open Scope Z_scope.

Lemma roundHalfEven_1 (n : Z) : roundHalfEven n 1 = n.
Proof.
  unfold roundHalfEven. rewrite Z.div_1_r, Z.mod_1_r. reflexivity.
Qed.

Lemma roundHalfEven_ge (n d : Z) : (n / d <= roundHalfEven n d)%Z.
Proof.
  unfold roundHalfEven.
  destruct (_ <? _)%Z; [lia|]. destruct (_ <? _)%Z; [lia|].
  destruct (Z.even _); lia.
Qed.

Lemma round_whole (v : Z) :
  (0 <= v)%Z →
  match roundToBinary64 v 1 with
  | Some q => ((v < 2 ^ 53)%Z → (q == inject_Z v)%Q)
              ∧ ((2 ^ 53 <= v)%Z → (inject_Z (2 ^ 53) <= q)%Q)
  | None => (2 ^ 53 <= v)%Z
  end.
Proof.
  intros Hv. unfold roundToBinary64.
  destruct (Z.eqb_spec v 0) as [->|Hn].
  { split; [reflexivity | intros H; exfalso; revert H; apply Z.lt_nge; reflexivity]. }
  change (Z.log2 1) with 0%Z. rewrite Z.sub_0_r.
  assert (0 < v)%Z as Hp by lia.
  pose proof (Z.log2_spec v Hp) as [Lo Hi].
  pose proof (Z.log2_nonneg v) as L0.
  set (L := Z.log2 v) in *.
  rewrite (proj2 (Z.leb_le 0 L) L0), Z.mul_1_l, (proj2 (Z.leb_le _ _) Lo).
  destruct (Z.le_gt_cases 52 L) as [G|G].
  - rewrite Z.max_l by lia. rewrite (proj2 (Z.leb_le 0 (L - 52)) ltac:(lia)).
    rewrite Z.mul_1_l.
    destruct (Z.eq_dec L 52) as [E|E].
    + rewrite E in *. change (52 - 52)%Z with 0%Z. change (2 ^ 0)%Z with 1%Z.
      rewrite roundHalfEven_1, Z.mul_1_r.
      change (Z.succ 52) with 53%Z in Hi.
      assert (v < 2 ^ 1024)%Z as B.
      { eapply Z.lt_trans; [exact Hi|]. reflexivity. }
      rewrite (proj2 (Z.leb_gt _ _) B).
      split; [reflexivity | lia].
    + assert (2 ^ 53 <= v)%Z as B.
      { eapply Z.le_trans; [|exact Lo]. apply Z.pow_le_mono_r; lia. }
      destruct (_ <=? _)%Z; [exact B|]. split; [lia|]. intros _.
      rewrite <- Zle_Qle.
      pose proof (roundHalfEven_ge v (2 ^ (L - 52))) as M.
      assert (2 ^ 52 <= v / 2 ^ (L - 52))%Z as D.
      { apply Z.div_le_lower_bound; [apply Z.pow_pos_nonneg; lia|].
        rewrite <- Z.pow_add_r by lia. replace (L - 52 + 52)%Z with L by lia.
        exact Lo. }
      assert (2 <= 2 ^ (L - 52))%Z as P.
      { change 2%Z with (2 ^ 1)%Z at 1. apply Z.pow_le_mono_r; lia. }
      change (2 ^ 53)%Z with (2 ^ 52 * 2)%Z.
      apply Z.mul_le_mono_nonneg; lia.
  - rewrite Z.max_l by lia.
    rewrite (proj2 (Z.leb_gt 0 (L - 52)) ltac:(lia)).
    rewrite roundHalfEven_1.
    assert (v < 2 ^ 53)%Z as B.
    { eapply Z.lt_le_trans; [exact Hi|]. apply Z.pow_le_mono_r; lia. }
    split; [|lia]. intros _. rewrite Qred_correct.
    unfold Qeq. cbn [Qnum Qden inject_Z].
    rewrite Z2Pos.id by (apply Z.pow_pos_nonneg; lia). lia.
Qed.

Lemma signed_whole (negative : bool) (v : Z) :
  0 <= v →
  outsideRange (signed negative v 1)
  ↔ if negative then 0 < v else 150 < v.
Proof.
  intros Hv. unfold signed. pose proof (round_whole v Hv) as R.
  destruct (roundToBinary64 v 1) as [q|].
  - destruct R as [R1 R2]. destruct (Z.lt_ge_cases v (2 ^ 53)) as [B|B].
    + specialize (R1 B). destruct q as [a b].
      unfold Qeq in R1. cbn [Qnum Qden inject_Z] in R1.
      destruct negative; unfold outsideRange, Qlt, Qopp;
        cbn [Qnum Qden]; nia.
    + specialize (R2 B). destruct q as [a b].
      unfold Qle in R2. cbn [Qnum Qden inject_Z] in R2.
      assert (2 ^ 53 <= a) as A by nia.
      assert (150 < 2 ^ 53) as C by reflexivity.
      destruct negative; unfold outsideRange, Qlt, Qopp;
        cbn [Qnum Qden]; nia.
  - assert (150 < 2 ^ 53) as C by reflexivity.
    destruct negative; simpl; split; trivial; lia.
Qed.

Lemma digit_not_space (c : N) : (48 ≤ c ≤ 57)%N → isWhiteSpace c = false.
Proof.
  intros H. unfold isWhiteSpace.
  repeat (apply orb_false_iff; split);
    rewrite ?andb_false_iff, ?N.leb_gt, ?N.eqb_neq; lia.
Qed.

Lemma digitOf_digit (c : N) :
  (48 ≤ c ≤ 57)%N → digitOf 10 c = Some (Z.of_N c - 48).
Proof.
  intros [H1 H2]. unfold digitOf.
  rewrite (proj2 (N.leb_le 48 c) H1), (proj2 (N.leb_le c 57) H2).
  cbn [andb]. rewrite (proj2 (Z.ltb_lt _ _)) by lia. reflexivity.
Qed.

Lemma spanDigits_whole (s : jsstring) :
  (∀ c, c ∈ s → (48 ≤ c ≤ 57)%N) →
  spanDigits 10 s = (map (λ c, Z.of_N c - 48) s, []).
Proof.
  induction s as [|c s IH]; intros H; [reflexivity|].
  cbn [spanDigits]. rewrite digitOf_digit by (apply H; constructor).
  rewrite IH by (intros x Hx; apply H; constructor; exact Hx). reflexivity.
Qed.

Lemma digitsValue_whole (s : jsstring) :
  digitsValue 10 (map (λ c, Z.of_N c - 48) s) = decimalValue s.
Proof.
  unfold digitsValue, decimalValue. generalize 0.
  induction s as [|c s IH]; intros acc; [reflexivity|]. apply IH.
Qed.

Lemma decimalValue_nonneg (s : jsstring) :
  (∀ c, c ∈ s → (48 ≤ c ≤ 57)%N) → 0 <= decimalValue s.
Proof.
  unfold decimalValue.
  assert (∀ acc, 0 <= acc → (∀ c, c ∈ s → (48 ≤ c ≤ 57)%N) →
            0 <= fold_left (λ a c, a * 10 + (Z.of_N c - 48)) s acc) as G.
  { induction s as [|c s IH]; intros acc A H; [exact A|]. simpl.
    apply IH.
    - assert (48 ≤ c)%N by (apply H; constructor). lia.
    - intros x Hx. apply H. constructor. exact Hx. }
  apply G. lia.
Qed.

Lemma trim_id (s : jsstring) :
  (∀ c, c ∈ s → isWhiteSpace c = false) → trim s = s.
Proof.
  assert (∀ l : jsstring,
            (∀ c, c ∈ l → isWhiteSpace c = false) → trimStart l = l) as T.
  { intros [|c l] H; [reflexivity|]. simpl.
    rewrite (H c) by constructor. reflexivity. }
  intros H. unfold trim, trimEnd. rewrite (T s H), T, rev_involutive.
  - reflexivity.
  - intros c Hc. apply H. apply list_elem_of_In, in_rev, list_elem_of_In, Hc.
Qed.

Lemma strUnsignedDecimalLiteral_whole (s : jsstring) :
  wholeNumber s →
  strUnsignedDecimalLiteral s = Some (MVRatio (decimalValue s) 1).
Proof.
  intros [Hne D]. unfold strUnsignedDecimalLiteral.
  rewrite spanDigits_whole by exact D. rewrite app_nil_r.
  rewrite <- digitsValue_whole.
  destruct s as [|c s]; [contradiction|].
  assert (48 ≤ c ≤ 57)%N as Hc by (apply D; constructor).
  change (str "Infinity") with (73%N :: str "nfinity").
  cbn [str_eqb]. rewrite (proj2 (N.eqb_neq c 73)) by lia.
  cbn [andb map exponentPart length Z.of_nat].
  change (0 - 0) with 0. change (0 <=? 0) with true. cbn iota.
  change (10 ^ 0) with 1. rewrite Z.mul_1_r. reflexivity.
Qed.

Lemma nonDecimal_whole (s : jsstring) :
  (∀ c, c ∈ s → (48 ≤ c ≤ 57)%N) → nonDecimalIntegerLiteral s = None.
Proof.
  intros D. unfold nonDecimalIntegerLiteral.
  destruct s as [|c [|p r]]; try (repeat case_match; reflexivity).
  assert (48 ≤ p ≤ 57)%N as Hp by (apply D; do 2 constructor).
  rewrite (proj2 (N.eqb_neq p 120)), (proj2 (N.eqb_neq p 88)),
    (proj2 (N.eqb_neq p 111)), (proj2 (N.eqb_neq p 79)),
    (proj2 (N.eqb_neq p 98)), (proj2 (N.eqb_neq p 66)) by lia.
  cbn [orb]. repeat case_match; reflexivity.
Qed.

(** The number a run of digits denotes, and the one it denotes behind a
    minus sign. *)
Lemma ToNumber_whole (s : jsstring) :
  wholeNumber s →
  ToNumber s = signed false (decimalValue s) 1
  ∧ ToNumber (45%N :: s) = signed true (decimalValue s) 1.
Proof.
  intros W. pose proof W as [Hne D]. split.
  - unfold ToNumber. rewrite trim_id
      by (intros c Hc; apply digit_not_space, D, Hc).
    destruct s as [|c r]; [contradiction|]. cbv beta iota zeta.
    rewrite nonDecimal_whole by exact D.
    assert (48 ≤ c ≤ 57)%N as Hc by (apply D; constructor).
    rewrite (proj2 (N.eqb_neq c 43)), (proj2 (N.eqb_neq c 45)) by lia.
    rewrite strUnsignedDecimalLiteral_whole by exact W.
    reflexivity.
  - unfold ToNumber. rewrite trim_id.
    + cbv beta iota zeta. cbn [nonDecimalIntegerLiteral].
      change (45 =? 43)%N with false. change (45 =? 45)%N with true.
      cbv iota. rewrite strUnsignedDecimalLiteral_whole by exact W.
      reflexivity.
    + intros c Hc. apply elem_of_cons in Hc as [->|Hc]; [reflexivity|].
      apply digit_not_space, D, Hc.
Qed.

(** X19: for an age written as a whole number (digits only), the age
    error is "Age must be between 0 and 150" when the number exceeds 150
    and there is none otherwise; for a whole number behind a minus sign
    the error is reported unless the number is zero. This holds for
    numbers of any length. *)
Theorem whole_number_ages (s : State) (d : jsstring) :
  wholeNumber d →
  let e := errors (run validateForm s).2 in
  (age (formData s) = d →
   e !! "age" = if 150 <? decimalValue d
                then Some (str "Age must be between 0 and 150") else None)
  ∧ (age (formData s) = 45%N :: d →
     e !! "age" = if 0 <? decimalValue d
                  then Some (str "Age must be between 0 and 150") else None).
Proof.
  intros W. pose proof W as [Hne D].
  pose proof (decimalValue_nonneg d D) as V.
  destruct (ToNumber_whole d W) as [T1 T2].
  unfold run. rewrite validateForm_run. cbn [snd errors].
  rewrite newErrors_age. split; intros ->.
  - destruct (ageError_spec d) as (_ & E2 & E3).
    pose proof (signed_whole false _ V) as S. rewrite <- T1 in S. cbv iota in S.
    destruct (Z.ltb_spec 150 (decimalValue d)) as [L|L].
    + apply E2; [exact Hne | apply S, L].
    + apply E3; [exact Hne | rewrite S; lia].
  - destruct (ageError_spec (45%N :: d)) as (_ & E2 & E3).
    pose proof (signed_whole true _ V) as S. rewrite <- T2 in S. cbv iota in S.
    destruct (Z.ltb_spec 0 (decimalValue d)) as [L|L].
    + apply E2; [discriminate | apply S, L].
    + apply E3; [discriminate | rewrite S; lia].
Qed.

Lemma whole_number_ages_witness :
  errors (run validateForm (filled "Jane Doe" "151")).2 !! "age"
  = (if 150 <? decimalValue (str "151")
     then Some (str "Age must be between 0 and 150") else None).
Proof.
  assert (wholeNumber (str "151")) as W.
  { split; [discriminate|]. intros c H.
    repeat (apply elem_of_cons in H as [->|H]; [split; discriminate|]).
    inversion H. }
  pose proof (whole_number_ages (filled "Jane Doe" "151") (str "151") W)
    as [P _].
  apply P. vm_compute. reflexivity.
Defined.

End WholeNumbers.
